(** * LED strip driver on the RMT peripheral

    A shallow embedding of [main/vendor/led/led_strip_rmt_dev.c]: the pixel
    buffer operations ([led_strip_rmt_set_pixel], [led_strip_rmt_set_pixel_rgbw],
    [led_strip_rmt_clear]), the transmit sequence ([led_strip_rmt_refresh]) and
    the acquisition and release of resources ([led_strip_new_rmt_device],
    [led_strip_rmt_del]).

    C integers are [Z] with the wrap-around of their width written out.  The
    flexible array [pixel_buf] is a byte store indexed by the offset from its
    first element, so that a store through [pixel_buf + start] is defined for
    every [start] the code can compute, inside the buffer or not.  Offsets
    are not reduced modulo 2^32 and the fields of the object are kept apart
    from the store: this is the memory of the target for every store that
    ends before the last [sizeof (led_strip_rmt_obj)] offsets below 2^32,
    which covers every store inside the buffer.  The calls
    into ESP-IDF (RMT driver, allocator) and into the strip encoder are
    recorded, in order, in a log; what each call returns is given by an
    oracle, so every theorem holds for every behaviour of these collaborators. *)

From Stdlib Require Import ZArith List Bool Lia.
Import ListNotations.
Local Open Scope Z_scope.

(** ** Machine integers *)

Definition uint32 (z : Z) : Z := z mod 4294967296.
Definition uint8 (z : Z) : Z := z mod 256.

(** ** Error codes ([esp_err.h]) *)

Definition esp_err_t := Z.
Definition ESP_OK : esp_err_t := 0.
Definition ESP_ERR_NO_MEM : esp_err_t := 257.       (* 0x101 *)
Definition ESP_ERR_INVALID_ARG : esp_err_t := 258.  (* 0x102 *)

(** ** The byte store behind [pixel_buf] *)

Definition byte_store := Z -> Z.

(** [pixel_buf[off] = v], the value converted to [uint8_t]. *)
Definition store_u8 (buf : byte_store) (off v : Z) : byte_store :=
  fun a => if a =? off then uint8 v else buf a.

(** [memset (pixel_buf, c, n)]. *)
Definition memset (buf : byte_store) (c n : Z) : byte_store :=
  fun a => if (0 <=? a) && (a <? n) then uint8 c else buf a.

(** The [n] bytes starting at offset [off]. *)
Definition read_bytes (buf : byte_store) (off : Z) (n : nat) : list Z :=
  map (fun k => buf (off + Z.of_nat k)) (seq 0 n).

(** ** Structures *)

(** [led_strip_rmt_obj].  The function pointers of [base] are the five
    operations below and are not stored. *)
Record led_strip_rmt_obj := mk_led_strip_rmt_obj {
  led_pixel_format : Z;      (* base.led_pixel_format *)
  rmt_chan : Z;              (* rmt_channel_handle_t, 0 is NULL *)
  strip_encoder : Z;         (* rmt_encoder_handle_t, 0 is NULL *)
  strip_len : Z;             (* uint32_t *)
  bytes_per_pixel : Z;       (* uint8_t *)
  pixel_buf : byte_store
}.

Record led_strip_config_t := mk_led_strip_config {
  strip_gpio_num : Z;
  max_leds : Z;              (* uint32_t *)
  cfg_led_pixel_format : Z;
  led_model : Z;
  invert_out : bool
}.

Record led_strip_rmt_config_t := mk_led_strip_rmt_config {
  clk_src : Z;
  resolution_hz : Z;
  mem_block_symbols : Z;
  with_dma : bool
}.

Record rmt_tx_channel_config_t := mk_rmt_tx_channel_config {
  tx_clk_src : Z;
  tx_gpio_num : Z;
  tx_mem_block_symbols : Z;
  tx_resolution_hz : Z;
  tx_trans_queue_depth : Z;
  tx_with_dma : bool;
  tx_invert_out : bool
}.

Record led_strip_encoder_config_t := mk_led_strip_encoder_config {
  enc_resolution : Z;
  enc_led_model : Z
}.

(** ** Calls to the collaborators *)

Inductive rmt_call : Type :=
| Call_rmt_enable (chan : Z)
| Call_rmt_transmit (chan enc : Z) (payload : list Z) (payload_bytes : Z)
                    (loop_count : Z)
| Call_rmt_tx_wait_all_done (chan : Z) (timeout_ms : Z)
| Call_rmt_disable (chan : Z)
| Call_rmt_del_channel (chan : Z)
| Call_rmt_del_encoder (enc : Z)
| Call_rmt_new_tx_channel (config : rmt_tx_channel_config_t)
| Call_rmt_new_led_strip_encoder (config : led_strip_encoder_config_t)
| Call_calloc (nmemb size : Z)
| Call_free (ptr : Z).

(** A call, what it returned, and the handle it stored through its output
    parameter (0 when it stored none). *)
Record event := mk_event {
  ev_call : rmt_call;
  ev_ret : Z;
  ev_out : Z
}.

(** The strip object at address [self] and the log of calls made so far. *)
Record machine := mk_machine {
  self : Z;
  strip : led_strip_rmt_obj;
  calls : list event
}.

(** ** A state monad over the machine *)

Definition M (A : Type) : Type := machine -> A * machine.

Definition ret {A} (a : A) : M A := fun m => (a, m).

Definition bind {A B} (c : M A) (f : A -> M B) : M B :=
  fun m => let (a, m') := c m in f a m'.

Notation "x <- c ;; k" := (bind c (fun x => k))
  (at level 61, c at next level, right associativity).
Notation "c ;;; k" := (bind c (fun _ => k))
  (at level 61, right associativity).

Definition get_strip : M led_strip_rmt_obj := fun m => (strip m, m).

Definition get_self : M Z := fun m => (self m, m).

Definition set_pixel_buf (buf : byte_store) (s : led_strip_rmt_obj)
  : led_strip_rmt_obj :=
  mk_led_strip_rmt_obj (led_pixel_format s) (rmt_chan s) (strip_encoder s)
                       (strip_len s) (bytes_per_pixel s) buf.

(** [rmt_strip->pixel_buf[off] = v]. *)
Definition write_pixel_buf (off v : Z) : M unit :=
  fun m => (tt, mk_machine (self m)
                  (set_pixel_buf (store_u8 (pixel_buf (strip m)) off v) (strip m))
                  (calls m)).

Definition memset_pixel_buf (c n : Z) : M unit :=
  fun m => (tt, mk_machine (self m)
                  (set_pixel_buf (memset (pixel_buf (strip m)) c n) (strip m))
                  (calls m)).

(** What the log records about the channel and about the resources held. *)

Definition is_enable (e : event) : bool :=
  match ev_call e with Call_rmt_enable _ => true | _ => false end.

Definition is_transmit (e : event) : bool :=
  match ev_call e with Call_rmt_transmit _ _ _ _ _ => true | _ => false end.

Definition is_disable (e : event) : bool :=
  match ev_call e with Call_rmt_disable _ => true | _ => false end.

Definition is_free (e : event) : bool :=
  match ev_call e with Call_free _ => true | _ => false end.

Definition count_calls (p : event -> bool) (l : list event) : nat :=
  length (filter p l).

(** The channel as the calls leave it: enabled once [rmt_enable] has
    returned [ESP_OK], disabled once [rmt_disable] has returned [ESP_OK]; a
    call that fails changes nothing. *)
Definition chan_step (enabled : bool) (e : event) : bool :=
  match ev_call e with
  | Call_rmt_enable _ => if ev_ret e =? ESP_OK then true else enabled
  | Call_rmt_disable _ => if ev_ret e =? ESP_OK then false else enabled
  | _ => enabled
  end.

Definition chan_enabled (init : bool) (l : list event) : bool :=
  fold_left chan_step l init.

Inductive resource : Type :=
| Res_mem (ptr : Z)
| Res_chan (h : Z)
| Res_enc (h : Z).

Definition resource_eqb (a b : resource) : bool :=
  match a, b with
  | Res_mem p, Res_mem q => p =? q
  | Res_chan p, Res_chan q => p =? q
  | Res_enc p, Res_enc q => p =? q
  | _, _ => false
  end.

Definition release (r : resource) (held : list resource) : list resource :=
  filter (fun x => negb (resource_eqb r x)) held.

(** Resources acquired and not yet released.  A constructor acquires when
    it returns [ESP_OK], [calloc] when it returns memory; a deletion releases
    when it returns [ESP_OK], and fails without releasing; [free] returns
    nothing and always releases. *)
Definition held_step (held : list resource) (e : event) : list resource :=
  match ev_call e with
  | Call_calloc _ _ =>
      if ev_ret e =? 0 then held else held ++ [Res_mem (ev_ret e)]
  | Call_rmt_new_tx_channel _ =>
      if ev_ret e =? ESP_OK then held ++ [Res_chan (ev_out e)] else held
  | Call_rmt_new_led_strip_encoder _ =>
      if ev_ret e =? ESP_OK then held ++ [Res_enc (ev_out e)] else held
  | Call_free p => release (Res_mem p) held
  | Call_rmt_del_channel h =>
      if ev_ret e =? ESP_OK then release (Res_chan h) held else held
  | Call_rmt_del_encoder h =>
      if ev_ret e =? ESP_OK then release (Res_enc h) held else held
  | _ => held
  end.

Definition outstanding (l : list event) : list resource :=
  fold_left held_step l [].

(** ** Sample data

    Values for the enumerators and the platform constants, sample strips and
    scripted collaborators, on which the driver is run further down. *)

Definition sample_GRB : Z := 0.
Definition sample_GRBW : Z := 1.
Definition sample_RGB : Z := 2.
Definition sample_INVALID : Z := 3.
Definition sample_CLK_SRC_DEFAULT : Z := 4.
Definition sample_MEM_BLOCK_SYMBOLS : Z := 64.
Definition sample_sizeof : Z := 40.

(** A strip whose bytes all hold [fill], with channel 7 and encoder 9, at
    address 4096, before any call. *)
Definition sample_machine (format bpp len fill : Z) : machine :=
  mk_machine 4096
    (mk_led_strip_rmt_obj format 7 9 len bpp (fun _ => fill)) [].

(** Collaborators that answer from a script, and [ESP_OK] once it is used up. *)
Definition scripted (answers : list Z) : nat -> Z :=
  fun n => nth n answers ESP_OK.

Definition sample_handle : nat -> positive :=
  fun n => Pos.of_succ_nat (100 + n).

Definition sample_led_config (format leds : Z) : led_strip_config_t :=
  mk_led_strip_config 8 leds format 0 false.

Definition sample_rmt_config : led_strip_rmt_config_t :=
  mk_led_strip_rmt_config 0 0 0 false.

(** ** The driver *)

Section Driver.

(** The enumerators of [led_pixel_format_t] come from
    [vendor/led/led_strip.h], the clock source and the size of the object
    from the platform; the driver is embedded for any values of them. *)
Variables LED_PIXEL_FORMAT_GRB LED_PIXEL_FORMAT_GRBW
          LED_PIXEL_FORMAT_RGB LED_PIXEL_FORMAT_INVALID : Z.
Variable RMT_CLK_SRC_DEFAULT : Z.
Variable LED_STRIP_RMT_DEFAULT_MEM_BLOCK_SYMBOLS : Z. (* 64 or 48 *)
Variable sizeof_led_strip_rmt_obj : Z.

(** What the [n]-th call returns, the handle it stores when it constructs
    something, and the bytes found past a fresh allocation. *)
Variable answer : nat -> Z.
Variable fresh_handle : nat -> positive.
Variable beyond : byte_store.

Definition LED_STRIP_RMT_DEFAULT_RESOLUTION : Z := 10000000.
Definition LED_STRIP_RMT_DEFAULT_TRANS_QUEUE_SIZE : Z := 4.

(** *** Calls *)

Definition do_call (c : rmt_call) (log : list event) : Z * list event :=
  let a := answer (length log) in (a, log ++ [mk_event c a 0]).

(** A constructor stores a non-null handle when it returns [ESP_OK] and
    stores nothing otherwise. *)
Definition do_new (c : rmt_call) (log : list event)
  : (esp_err_t * Z) * list event :=
  let a := answer (length log) in
  let h := if a =? ESP_OK then Z.pos (fresh_handle (length log)) else 0 in
  ((a, h), log ++ [mk_event c a h]).

Definition do_void (c : rmt_call) (log : list event) : list event :=
  log ++ [mk_event c 0 0].

Definition extern (c : rmt_call) : M Z :=
  fun m => let (a, l) := do_call c (calls m) in
           (a, mk_machine (self m) (strip m) l).

Definition extern_void (c : rmt_call) : M unit :=
  fun m => (tt, mk_machine (self m) (strip m) (do_void c (calls m))).

(** *** [led_strip_rmt_set_pixel] *)

Definition led_strip_rmt_set_pixel (index red green blue : Z) : M esp_err_t :=
  rmt_strip <- get_strip ;;
  let start := uint32 (index * bytes_per_pixel rmt_strip) in
  if led_pixel_format rmt_strip =? LED_PIXEL_FORMAT_RGB then
    write_pixel_buf (start + 0) (Z.land red 255) ;;;
    write_pixel_buf (start + 1) (Z.land green 255) ;;;
    write_pixel_buf (start + 2) (Z.land blue 255) ;;;
    ret ESP_OK
  else if led_pixel_format rmt_strip =? LED_PIXEL_FORMAT_GRB then
    write_pixel_buf (start + 0) (Z.land green 255) ;;;
    write_pixel_buf (start + 1) (Z.land red 255) ;;;
    write_pixel_buf (start + 2) (Z.land blue 255) ;;;
    ret ESP_OK
  else
    ret ESP_ERR_INVALID_ARG.

(** *** [led_strip_rmt_set_pixel_rgbw] *)

Definition led_strip_rmt_set_pixel_rgbw (index red green blue white : Z)
  : M esp_err_t :=
  rmt_strip <- get_strip ;;
  if negb (index <? strip_len rmt_strip) then ret ESP_ERR_INVALID_ARG else
  if negb (bytes_per_pixel rmt_strip =? 4) then ret ESP_ERR_INVALID_ARG else
  let buf_start := uint32 (index * 4) in
  write_pixel_buf buf_start (Z.land green 255) ;;;
  write_pixel_buf (buf_start + 1) (Z.land red 255) ;;;
  write_pixel_buf (buf_start + 2) (Z.land blue 255) ;;;
  write_pixel_buf (buf_start + 3) (Z.land white 255) ;;;
  ret ESP_OK.

(** *** [led_strip_rmt_refresh] *)

Definition led_strip_rmt_refresh : M esp_err_t :=
  rmt_strip <- get_strip ;;
  let tx_conf_loop_count := 0 in
  err <- extern (Call_rmt_enable (rmt_chan rmt_strip)) ;;
  if negb (err =? ESP_OK) then ret err else
  let n := uint32 (strip_len rmt_strip * bytes_per_pixel rmt_strip) in
  err <- extern (Call_rmt_transmit (rmt_chan rmt_strip)
                   (strip_encoder rmt_strip)
                   (read_bytes (pixel_buf rmt_strip) 0 (Z.to_nat n))
                   n tx_conf_loop_count) ;;
  if negb (err =? ESP_OK) then
    extern (Call_rmt_disable (rmt_chan rmt_strip)) ;;;
    ret err
  else
  err <- extern (Call_rmt_tx_wait_all_done (rmt_chan rmt_strip) (-1)) ;;
  if negb (err =? ESP_OK) then
    extern (Call_rmt_disable (rmt_chan rmt_strip)) ;;;
    ret err
  else
  err <- extern (Call_rmt_disable (rmt_chan rmt_strip)) ;;
  if negb (err =? ESP_OK) then ret err else
  ret ESP_OK.

(** *** [led_strip_rmt_clear] *)

Definition led_strip_rmt_clear : M esp_err_t :=
  rmt_strip <- get_strip ;;
  memset_pixel_buf 0
    (uint32 (strip_len rmt_strip * bytes_per_pixel rmt_strip)) ;;;
  led_strip_rmt_refresh.

(** *** [led_strip_rmt_del] *)

Definition led_strip_rmt_del : M esp_err_t :=
  rmt_strip <- get_strip ;;
  err <- extern (Call_rmt_del_channel (rmt_chan rmt_strip)) ;;
  if negb (err =? ESP_OK) then ret err else
  err <- extern (Call_rmt_del_encoder (strip_encoder rmt_strip)) ;;
  if negb (err =? ESP_OK) then ret err else
  p <- get_self ;;
  extern_void (Call_free p) ;;;
  ret ESP_OK.

(** *** [led_strip_new_rmt_device] *)

(** The [err:] label: release what the object under construction holds. *)
Definition new_rmt_device_err (rmt_strip : option (Z * led_strip_rmt_obj))
           (ret_code : esp_err_t) (log : list event)
  : (esp_err_t * option (Z * led_strip_rmt_obj)) * list event :=
  match rmt_strip with
  | Some (p, s) =>
      let log1 := if negb (rmt_chan s =? 0)
                  then snd (do_call (Call_rmt_del_channel (rmt_chan s)) log)
                  else log in
      let log2 := if negb (strip_encoder s =? 0)
                  then snd (do_call (Call_rmt_del_encoder (strip_encoder s)) log1)
                  else log1 in
      ((ret_code, None), do_void (Call_free p) log2)
  | None => ((ret_code, None), log)
  end.

(** The object as [calloc] hands it over: every field and every byte of the
    allocation zero. *)
Definition calloc_obj (size : Z) : led_strip_rmt_obj :=
  mk_led_strip_rmt_obj 0 0 0 0 0
    (memset beyond 0 (size - sizeof_led_strip_rmt_obj)).

Definition set_rmt_chan (h : Z) (s : led_strip_rmt_obj) : led_strip_rmt_obj :=
  mk_led_strip_rmt_obj (led_pixel_format s) h (strip_encoder s)
                       (strip_len s) (bytes_per_pixel s) (pixel_buf s).

Definition set_strip_encoder (h : Z) (s : led_strip_rmt_obj)
  : led_strip_rmt_obj :=
  mk_led_strip_rmt_obj (led_pixel_format s) (rmt_chan s) h
                       (strip_len s) (bytes_per_pixel s) (pixel_buf s).

Definition led_strip_new_rmt_device
           (led_config : option led_strip_config_t)
           (rmt_config : option led_strip_rmt_config_t)
           (ret_strip : bool) (log : list event)
  : (esp_err_t * option (Z * led_strip_rmt_obj)) * list event :=
  match led_config, rmt_config, ret_strip with
  | Some led_config, Some rmt_config, true =>
    if negb (cfg_led_pixel_format led_config <? LED_PIXEL_FORMAT_INVALID)
    then new_rmt_device_err None ESP_ERR_INVALID_ARG log else
    let bpp :=
      if cfg_led_pixel_format led_config =? LED_PIXEL_FORMAT_GRBW then Some 4
      else if (cfg_led_pixel_format led_config =? LED_PIXEL_FORMAT_GRB)
              || (cfg_led_pixel_format led_config =? LED_PIXEL_FORMAT_RGB)
      then Some 3
      else None in
    match bpp with
    | None => ((ESP_ERR_INVALID_ARG, None), log)
    | Some bytes_per_pixel =>
      let size := uint32 (sizeof_led_strip_rmt_obj
                          + uint32 (max_leds led_config * bytes_per_pixel)) in
      let (ptr, log) := do_call (Call_calloc 1 size) log in
      if ptr =? 0 then new_rmt_device_err None ESP_ERR_NO_MEM log else
      let rmt_strip := calloc_obj size in
      let resolution := if negb (resolution_hz rmt_config =? 0)
                        then resolution_hz rmt_config
                        else LED_STRIP_RMT_DEFAULT_RESOLUTION in
      let clk := if negb (clk_src rmt_config =? 0)
                 then clk_src rmt_config else RMT_CLK_SRC_DEFAULT in
      let mem_block := if negb (mem_block_symbols rmt_config =? 0)
                       then mem_block_symbols rmt_config
                       else LED_STRIP_RMT_DEFAULT_MEM_BLOCK_SYMBOLS in
      let rmt_chan_config :=
        mk_rmt_tx_channel_config clk (strip_gpio_num led_config) mem_block
          resolution LED_STRIP_RMT_DEFAULT_TRANS_QUEUE_SIZE
          (with_dma rmt_config) (invert_out led_config) in
      let '((err, h), log) :=
        do_new (Call_rmt_new_tx_channel rmt_chan_config) log in
      let rmt_strip := if err =? ESP_OK then set_rmt_chan h rmt_strip
                       else rmt_strip in
      if negb (err =? ESP_OK)
      then new_rmt_device_err (Some (ptr, rmt_strip)) err log else
      let strip_encoder_conf :=
        mk_led_strip_encoder_config resolution (led_model led_config) in
      let '((err, h), log) :=
        do_new (Call_rmt_new_led_strip_encoder strip_encoder_conf) log in
      let rmt_strip := if err =? ESP_OK then set_strip_encoder h rmt_strip
                       else rmt_strip in
      if negb (err =? ESP_OK)
      then new_rmt_device_err (Some (ptr, rmt_strip)) err log else
      let rmt_strip :=
        mk_led_strip_rmt_obj (cfg_led_pixel_format led_config)
          (rmt_chan rmt_strip) (strip_encoder rmt_strip)
          (max_leds led_config) bytes_per_pixel (pixel_buf rmt_strip) in
      ((ESP_OK, Some (ptr, rmt_strip)), log)
    end
  | _, _, _ => new_rmt_device_err None ESP_ERR_INVALID_ARG log
  end.

(** *** What the claims speak of *)

(** The machine with another byte store behind [pixel_buf]. *)
Definition with_buf (buf : byte_store) (m : machine) : machine :=
  mk_machine (self m) (set_pixel_buf buf (strip m)) (calls m).

(** The machine after more calls. *)
Definition with_calls (evs : list event) (m : machine) : machine :=
  mk_machine (self m) (strip m) (calls m ++ evs).

(** The data model: the buffer holds [strip_len * bytes_per_pixel] bytes
    and lies within the 32-bit address space. *)
Definition buffer_fits (s : led_strip_rmt_obj) : Prop :=
  0 <= strip_len s /\ 0 <= bytes_per_pixel s /\
  strip_len s * bytes_per_pixel s < 4294967296.

(** The calls made since the log was [k] entries long. *)
Definition calls_since (k : nat) (m : machine) : list event :=
  skipn k (calls m).

Definition transmit_payload (e : event) : option (list Z) :=
  match ev_call e with
  | Call_rmt_transmit _ _ payload _ _ => Some payload
  | _ => None
  end.

(** Three consecutive stores from [start] on. *)
Definition put3 (buf : byte_store) (start x y z : Z) : byte_store :=
  store_u8 (store_u8 (store_u8 buf (start + 0) (Z.land x 255))
                     (start + 1) (Z.land y 255))
           (start + 2) (Z.land z 255).

Definition put4 (buf : byte_store) (start x y z w : Z) : byte_store :=
  store_u8 (store_u8 (store_u8 (store_u8 buf start (Z.land x 255))
                               (start + 1) (Z.land y 255))
                     (start + 2) (Z.land z 255))
           (start + 3) (Z.land w 255).

(** The transmit protocol as the specification lists it, steps 1 to 4: the
    result reported and the calls made when the log is [k] entries long. *)
Definition spec_refresh (s : led_strip_rmt_obj) (k : nat)
  : esp_err_t * list event :=
  let n := uint32 (strip_len s * bytes_per_pixel s) in
  let enable := mk_event (Call_rmt_enable (rmt_chan s)) (answer k) 0 in
  let submit :=
    mk_event (Call_rmt_transmit (rmt_chan s) (strip_encoder s)
                (read_bytes (pixel_buf s) 0 (Z.to_nat n)) n 0)
             (answer (1 + k)) 0 in
  let wait :=
    mk_event (Call_rmt_tx_wait_all_done (rmt_chan s) (-1)) (answer (2 + k)) 0 in
  let disable j := mk_event (Call_rmt_disable (rmt_chan s)) (answer j) 0 in
  if negb (answer k =? ESP_OK) then (answer k, [enable])
  else if negb (answer (1 + k) =? ESP_OK)
  then (answer (1 + k), [enable; submit; disable (2 + k)%nat])
  else if negb (answer (2 + k) =? ESP_OK)
  then (answer (2 + k), [enable; submit; wait; disable (3 + k)%nat])
  else (answer (3 + k), [enable; submit; wait; disable (3 + k)%nat]).

(** Case analysis on the answers [refresh] looks at. *)
Ltac spec_refresh_cases s k :=
  unfold spec_refresh;
  destruct (Z.eqb_spec (answer k) ESP_OK);
  [destruct (Z.eqb_spec (answer (1 + k)) ESP_OK);
   [destruct (Z.eqb_spec (answer (2 + k)) ESP_OK)|]|];
  cbn [negb fst snd].

(** The three fields fixed at construction. *)
Definition same_fields (s s' : led_strip_rmt_obj) : Prop :=
  led_pixel_format s' = led_pixel_format s /\
  bytes_per_pixel s' = bytes_per_pixel s /\
  strip_len s' = strip_len s.

(** The buffer proper: the offsets below [strip_len * bytes_per_pixel]. *)
Definition in_buffer (s : led_strip_rmt_obj) (a : Z) : Prop :=
  0 <= a < strip_len s * bytes_per_pixel s.

(** The byte store after an operation. *)
Definition buf_after {A} (run : A * machine) : byte_store :=
  pixel_buf (strip (snd run)).

(** The width [led_strip_new_rmt_device] derives from a format, if any. *)
Definition width_of_format (format : Z) : option Z :=
  if format =? LED_PIXEL_FORMAT_GRBW then Some 4
  else if (format =? LED_PIXEL_FORMAT_GRB) || (format =? LED_PIXEL_FORMAT_RGB)
       then Some 3 else None.


(** On the 32-bit target the object's own fields lie in front of
    [pixel_buf], so that [pixel_buf + off] addresses them for the last
    [sizeof (led_strip_rmt_obj)] offsets below 2^32; the byte store keeps
    them apart.  The [width] stores from [start] on are clear of the header
    when they end before those offsets (and so do not wrap either). *)
Definition clear_of_header (start width : Z) : Prop :=
  0 <= start /\
  start + width <= 4294967296 - sizeof_led_strip_rmt_obj /\
  0 <= sizeof_led_strip_rmt_obj.

(** ** Bytes and stores *)

Lemma land_255_mod (v : Z) : Z.land v 255 = v mod 256.
Proof. exact (Z.land_ones v 8 ltac:(lia)). Qed.

Lemma uint8_land_255 (v : Z) : uint8 (Z.land v 255) = v mod 256.
Proof.
  unfold uint8. rewrite land_255_mod. apply Z.mod_mod. lia.
Qed.

Lemma store_u8_same buf off v : store_u8 buf off v off = uint8 v.
Proof. unfold store_u8. now rewrite Z.eqb_refl. Qed.

Lemma store_u8_other buf off v a : a <> off -> store_u8 buf off v a = buf a.
Proof.
  intros H. unfold store_u8. destruct (Z.eqb_spec a off); congruence.
Qed.

Lemma memset_inside buf c n a : 0 <= a < n -> memset buf c n a = uint8 c.
Proof.
  intros H. unfold memset.
  destruct (Z.leb_spec 0 a); destruct (Z.ltb_spec a n); simpl; auto; lia.
Qed.

Lemma memset_outside buf c n a : ~ (0 <= a < n) -> memset buf c n a = buf a.
Proof.
  intros H. unfold memset.
  destruct (Z.leb_spec 0 a); destruct (Z.ltb_spec a n); simpl; auto; lia.
Qed.

Lemma read_bytes_length buf off n : length (read_bytes buf off n) = n.
Proof. unfold read_bytes. now rewrite length_map, length_seq. Qed.

Lemma read_bytes_const buf off n c :
  (forall a, off <= a < off + Z.of_nat n -> buf a = c) ->
  read_bytes buf off n = repeat c n.
Proof.
  intros H. unfold read_bytes.
  assert (G : forall l, (forall k, In k l -> (off <= off + Z.of_nat k < off + Z.of_nat n)) ->
              map (fun k => buf (off + Z.of_nat k)) l = repeat c (length l)).
  { induction l as [|k l IH]; intros Hl; simpl; [reflexivity|].
    rewrite H by (apply Hl; now left). f_equal. apply IH.
    intros k' Hk'. apply Hl. now right. }
  rewrite G.
  - now rewrite length_seq.
  - intros k Hk. apply in_seq in Hk. lia.
Qed.

Lemma uint32_small z : 0 <= z < 4294967296 -> uint32 z = z.
Proof. intros H. unfold uint32. now apply Z.mod_small. Qed.

Lemma pixel_offset_in_range (s : led_strip_rmt_obj) index :
  buffer_fits s -> 0 <= index < strip_len s ->
  uint32 (index * bytes_per_pixel s) = index * bytes_per_pixel s.
Proof.
  intros (Hl & Hb & Hf) Hi. apply uint32_small. nia.
Qed.

(** ** What the two pixel writes compute *)

Lemma put3_read buf start x y z :
  read_bytes (put3 buf start x y z) start 3 = [x mod 256; y mod 256; z mod 256].
Proof.
  unfold read_bytes, put3. simpl.
  repeat (rewrite ?store_u8_same, ?uint8_land_255;
          try rewrite store_u8_other by lia).
  reflexivity.
Qed.

Lemma put3_frame buf start x y z a :
  ~ (start <= a < start + 3) -> put3 buf start x y z a = buf a.
Proof.
  intros H. unfold put3. now rewrite !store_u8_other by lia.
Qed.

Lemma put4_read buf start x y z w :
  read_bytes (put4 buf start x y z w) start 4
  = [x mod 256; y mod 256; z mod 256; w mod 256].
Proof.
  unfold read_bytes, put4. simpl. rewrite Z.add_0_r.
  repeat (rewrite ?store_u8_same, ?uint8_land_255;
          try rewrite store_u8_other by lia).
  reflexivity.
Qed.

Lemma put4_frame buf start x y z w a :
  ~ (start <= a < start + 4) -> put4 buf start x y z w a = buf a.
Proof.
  intros H. unfold put4. now rewrite !store_u8_other by lia.
Qed.

Lemma set_pixel_rgb m index red green blue :
  led_pixel_format (strip m) = LED_PIXEL_FORMAT_RGB ->
  led_strip_rmt_set_pixel index red green blue m
  = (ESP_OK,
     with_buf (put3 (pixel_buf (strip m))
                    (uint32 (index * bytes_per_pixel (strip m)))
                    red green blue) m).
Proof.
  intros H. unfold led_strip_rmt_set_pixel, bind, get_strip.
  rewrite H, Z.eqb_refl. reflexivity.
Qed.

Lemma set_pixel_grb m index red green blue :
  led_pixel_format (strip m) <> LED_PIXEL_FORMAT_RGB ->
  led_pixel_format (strip m) = LED_PIXEL_FORMAT_GRB ->
  led_strip_rmt_set_pixel index red green blue m
  = (ESP_OK,
     with_buf (put3 (pixel_buf (strip m))
                    (uint32 (index * bytes_per_pixel (strip m)))
                    green red blue) m).
Proof.
  intros Hn H. unfold led_strip_rmt_set_pixel, bind, get_strip.
  destruct (Z.eqb_spec (led_pixel_format (strip m)) LED_PIXEL_FORMAT_RGB);
    [contradiction|].
  rewrite H, Z.eqb_refl. reflexivity.
Qed.

Lemma set_pixel_other m index red green blue :
  led_pixel_format (strip m) <> LED_PIXEL_FORMAT_RGB ->
  led_pixel_format (strip m) <> LED_PIXEL_FORMAT_GRB ->
  led_strip_rmt_set_pixel index red green blue m = (ESP_ERR_INVALID_ARG, m).
Proof.
  intros H1 H2. unfold led_strip_rmt_set_pixel, bind, get_strip.
  destruct (Z.eqb_spec (led_pixel_format (strip m)) LED_PIXEL_FORMAT_RGB);
    [contradiction|].
  destruct (Z.eqb_spec (led_pixel_format (strip m)) LED_PIXEL_FORMAT_GRB);
    [contradiction|].
  reflexivity.
Qed.

Lemma set_pixel_rgbw_ok m index red green blue white :
  index < strip_len (strip m) -> bytes_per_pixel (strip m) = 4 ->
  led_strip_rmt_set_pixel_rgbw index red green blue white m
  = (ESP_OK,
     with_buf (put4 (pixel_buf (strip m)) (uint32 (index * 4))
                    green red blue white) m).
Proof.
  intros Hi Hb. unfold led_strip_rmt_set_pixel_rgbw, bind, get_strip.
  destruct (Z.ltb_spec index (strip_len (strip m))); [|lia].
  rewrite Hb. reflexivity.
Qed.

Lemma set_pixel_rgbw_rejected m index red green blue white :
  strip_len (strip m) <= index \/ bytes_per_pixel (strip m) <> 4 ->
  led_strip_rmt_set_pixel_rgbw index red green blue white m
  = (ESP_ERR_INVALID_ARG, m).
Proof.
  intros H. unfold led_strip_rmt_set_pixel_rgbw, bind, get_strip.
  destruct (Z.ltb_spec index (strip_len (strip m))); simpl; [|reflexivity].
  destruct (Z.eqb_spec (bytes_per_pixel (strip m)) 4); simpl; [lia|reflexivity].
Qed.

(** ** Pixel writes: the claims *)

(** C1: on a device whose buffer holds [strip_len * bytes_per_pixel] bytes,
    for every index below [strip_len], [set_pixel] writes exactly three
    bytes at offset [index * bytes_per_pixel], (R,G,B) for format RGB and
    (G,R,B) for format GRB, and [set_pixel_rgbw] writes four bytes in the
    order (G,R,B,W); on a GRB device [set_pixel (0, 255, 0, 0)] leaves the
    bytes 0..2 equal to 0x00, 0xFF, 0x00. *)
Theorem C1_pixel_wire_order (m : machine) :
  LED_PIXEL_FORMAT_RGB <> LED_PIXEL_FORMAT_GRB ->
  buffer_fits (strip m) ->
  (forall index red green blue,
      0 <= index < strip_len (strip m) ->
      let off := index * bytes_per_pixel (strip m) in
      let run := led_strip_rmt_set_pixel index red green blue m in
      (led_pixel_format (strip m) = LED_PIXEL_FORMAT_RGB ->
       fst run = ESP_OK /\
       read_bytes (pixel_buf (strip (snd run))) off 3
       = [red mod 256; green mod 256; blue mod 256]) /\
      (led_pixel_format (strip m) = LED_PIXEL_FORMAT_GRB ->
       fst run = ESP_OK /\
       read_bytes (pixel_buf (strip (snd run))) off 3
       = [green mod 256; red mod 256; blue mod 256]) /\
      (forall a, ~ (off <= a < off + 3) ->
                 pixel_buf (strip (snd run)) a = pixel_buf (strip m) a)) /\
  (forall index red green blue white,
      0 <= index < strip_len (strip m) ->
      bytes_per_pixel (strip m) = 4 ->
      let off := index * bytes_per_pixel (strip m) in
      let run := led_strip_rmt_set_pixel_rgbw index red green blue white m in
      fst run = ESP_OK /\
      read_bytes (pixel_buf (strip (snd run))) off 4
      = [green mod 256; red mod 256; blue mod 256; white mod 256] /\
      (forall a, ~ (off <= a < off + 4) ->
                 pixel_buf (strip (snd run)) a = pixel_buf (strip m) a)) /\
  (led_pixel_format (strip m) = LED_PIXEL_FORMAT_GRB ->
   read_bytes
     (pixel_buf (strip (snd (led_strip_rmt_set_pixel 0 255 0 0 m)))) 0 3
   = [0; 255; 0]).
Proof.
  intros Hne Hfit. split; [|split].
  - intros index red green blue Hi off run.
    pose proof (pixel_offset_in_range _ _ Hfit Hi) as Hoff.
    subst off run. split; [|split].
    + intros Hf. rewrite (set_pixel_rgb _ _ _ _ _ Hf). cbn [fst snd].
      split; [reflexivity|]. unfold with_buf; cbn. rewrite Hoff.
      apply put3_read.
    + intros Hf.
      rewrite set_pixel_grb by congruence. cbn [fst snd].
      split; [reflexivity|]. unfold with_buf; cbn. rewrite Hoff.
      apply put3_read.
    + intros a Ha.
      destruct (Z.eq_dec (led_pixel_format (strip m)) LED_PIXEL_FORMAT_RGB)
        as [Hf|Hf].
      { rewrite (set_pixel_rgb _ _ _ _ _ Hf). unfold with_buf; cbn.
        rewrite Hoff. now apply put3_frame. }
      destruct (Z.eq_dec (led_pixel_format (strip m)) LED_PIXEL_FORMAT_GRB)
        as [Hg|Hg].
      { rewrite (set_pixel_grb _ _ _ _ _ Hf Hg). unfold with_buf; cbn.
        rewrite Hoff. now apply put3_frame. }
      now rewrite (set_pixel_other _ _ _ _ _ Hf Hg).
  - intros index red green blue white Hi Hb off run. subst off run.
    rewrite set_pixel_rgbw_ok by (lia || assumption). cbn [fst snd].
    unfold with_buf; cbn.
    assert (Hoff : uint32 (index * 4) = index * bytes_per_pixel (strip m)).
    { rewrite <- Hb. now apply pixel_offset_in_range. }
    rewrite Hoff. split; [reflexivity|]. split.
    + apply put4_read.
    + intros a Ha. now apply put4_frame.
  - intros Hf. rewrite set_pixel_grb by congruence. unfold with_buf; cbn.
    reflexivity.
Qed.

(** C3: on an RGB or GRB device [set_pixel] performs its three stores and
    returns [ESP_OK] for every index whatsoever, below [strip_len] or not
    (the offset is [index * bytes_per_pixel] as the 32-bit multiplication
    gives it); it returns [ESP_ERR_INVALID_ARG] exactly when the format is
    neither RGB nor GRB, and it then writes nothing. *)
Theorem C3_set_pixel_index_unchecked (m : machine) (index red green blue : Z) :
  let run := led_strip_rmt_set_pixel index red green blue m in
  let start := uint32 (index * bytes_per_pixel (strip m)) in
  (led_pixel_format (strip m) = LED_PIXEL_FORMAT_RGB \/
   led_pixel_format (strip m) = LED_PIXEL_FORMAT_GRB ->
   fst run = ESP_OK /\
   read_bytes (pixel_buf (strip (snd run))) start 3
   = (if led_pixel_format (strip m) =? LED_PIXEL_FORMAT_RGB
      then [red mod 256; green mod 256; blue mod 256]
      else [green mod 256; red mod 256; blue mod 256])) /\
  (fst run = ESP_ERR_INVALID_ARG <->
   led_pixel_format (strip m) <> LED_PIXEL_FORMAT_RGB /\
   led_pixel_format (strip m) <> LED_PIXEL_FORMAT_GRB) /\
  (led_pixel_format (strip m) <> LED_PIXEL_FORMAT_RGB /\
   led_pixel_format (strip m) <> LED_PIXEL_FORMAT_GRB ->
   snd run = m).
Proof.
  intros run start. subst run start.
  destruct (Z.eqb_spec (led_pixel_format (strip m)) LED_PIXEL_FORMAT_RGB)
    as [Hf|Hf].
  - rewrite (set_pixel_rgb _ _ _ _ _ Hf). cbn [fst snd].
    split; [|split].
    + intros _. split; [reflexivity|]. unfold with_buf; cbn. apply put3_read.
    + split; [discriminate|]. intros [H _]. contradiction.
    + intros [H _]. contradiction.
  - destruct (Z.eq_dec (led_pixel_format (strip m)) LED_PIXEL_FORMAT_GRB)
      as [Hg|Hg].
    + rewrite (set_pixel_grb _ _ _ _ _ Hf Hg). cbn [fst snd].
      split; [|split].
      * intros _. split; [reflexivity|]. unfold with_buf; cbn.
        apply put3_read.
      * split; [discriminate|]. intros [_ H]. contradiction.
      * intros [_ H]. contradiction.
    + rewrite (set_pixel_other _ _ _ _ _ Hf Hg). cbn [fst snd].
      split; [|split].
      * intros [H|H]; contradiction.
      * split; auto.
      * reflexivity.
Qed.

(** C4: [set_pixel_rgbw] returns [ESP_ERR_INVALID_ARG] whenever
    [index >= strip_len] or [bytes_per_pixel != 4], and then leaves the
    pixel buffer (the whole machine) as it was; it returns [ESP_OK] when
    [index < strip_len] and [bytes_per_pixel == 4]. *)
Theorem C4_set_pixel_rgbw_validation
        (m : machine) (index red green blue white : Z) :
  let run := led_strip_rmt_set_pixel_rgbw index red green blue white m in
  (strip_len (strip m) <= index \/ bytes_per_pixel (strip m) <> 4 ->
   fst run = ESP_ERR_INVALID_ARG /\ snd run = m) /\
  (index < strip_len (strip m) -> bytes_per_pixel (strip m) = 4 ->
   fst run = ESP_OK).
Proof.
  intros run. subst run. split.
  - intros H. rewrite set_pixel_rgbw_rejected by assumption. now split.
  - intros Hi Hb. now rewrite set_pixel_rgbw_ok.
Qed.

(** C6: every channel argument of [set_pixel] and [set_pixel_rgbw] is stored
    reduced modulo 256, whatever its value, and the call still returns
    [ESP_OK]; red = 300 stores the byte 44. *)
Theorem C6_channel_truncation
        (m : machine) (index red green blue white : Z) :
  let start := uint32 (index * bytes_per_pixel (strip m)) in
  (led_pixel_format (strip m) = LED_PIXEL_FORMAT_RGB ->
   let run := led_strip_rmt_set_pixel index red green blue m in
   let buf' := pixel_buf (strip (snd run)) in
   fst run = ESP_OK /\ buf' start = red mod 256 /\
   buf' (start + 1) = green mod 256 /\ buf' (start + 2) = blue mod 256) /\
  (led_pixel_format (strip m) <> LED_PIXEL_FORMAT_RGB ->
   led_pixel_format (strip m) = LED_PIXEL_FORMAT_GRB ->
   let run := led_strip_rmt_set_pixel index red green blue m in
   let buf' := pixel_buf (strip (snd run)) in
   fst run = ESP_OK /\ buf' start = green mod 256 /\
   buf' (start + 1) = red mod 256 /\ buf' (start + 2) = blue mod 256) /\
  (index < strip_len (strip m) -> bytes_per_pixel (strip m) = 4 ->
   let run := led_strip_rmt_set_pixel_rgbw index red green blue white m in
   let buf' := pixel_buf (strip (snd run)) in
   let start4 := uint32 (index * 4) in
   fst run = ESP_OK /\ buf' start4 = green mod 256 /\
   buf' (start4 + 1) = red mod 256 /\ buf' (start4 + 2) = blue mod 256 /\
   buf' (start4 + 3) = white mod 256) /\
  (led_pixel_format (strip m) = LED_PIXEL_FORMAT_RGB ->
   pixel_buf (strip (snd (led_strip_rmt_set_pixel index 300 green blue m)))
             start = 44).
Proof.
  intros start. subst start.
  set (s := uint32 (index * bytes_per_pixel (strip m))).
  assert (R3 : forall buf x y z,
             put3 buf s x y z s = x mod 256 /\
             put3 buf s x y z (s + 1) = y mod 256 /\
             put3 buf s x y z (s + 2) = z mod 256).
  { intros buf x y z.
    pose proof (put3_read buf s x y z) as H. unfold read_bytes in H.
    cbn in H. rewrite Z.add_0_r in H. now inversion H. }
  split; [|split; [|split]].
  - intros Hf run buf'. subst run buf'.
    rewrite (set_pixel_rgb _ _ _ _ _ Hf). cbn [fst snd]. unfold with_buf; cbn.
    fold s. split; [reflexivity|]. apply R3.
  - intros Hf Hg run buf'. subst run buf'.
    rewrite (set_pixel_grb _ _ _ _ _ Hf Hg). cbn [fst snd].
    unfold with_buf; cbn. fold s. split; [reflexivity|]. apply R3.
  - intros Hi Hb run buf' start4. subst run buf' start4.
    rewrite set_pixel_rgbw_ok by assumption. cbn [fst snd].
    unfold with_buf; cbn. split; [reflexivity|].
    pose proof (put4_read (pixel_buf (strip m)) (uint32 (index * 4))
                          green red blue white) as H.
    unfold read_bytes in H. cbn in H. rewrite Z.add_0_r in H.
    now inversion H.
  - intros Hf. rewrite (set_pixel_rgb _ _ _ _ _ Hf). unfold with_buf; cbn.
    fold s. now rewrite (proj1 (R3 _ _ _ _)).
Qed.

(** C10, at the input that breaks it: on a GRB device with three bytes per
    pixel, [set_pixel] for pixel 1431655766 returns [ESP_OK] and stores its
    three bytes at offsets 2, 3 and 4, inside pixels 0 and 1. *)
Theorem C10_set_pixel_far_index_hits_near_pixels (m : machine) :
  LED_PIXEL_FORMAT_RGB <> LED_PIXEL_FORMAT_GRB ->
  led_pixel_format (strip m) = LED_PIXEL_FORMAT_GRB ->
  bytes_per_pixel (strip m) = 3 ->
  let run := led_strip_rmt_set_pixel 1431655766 1 2 3 m in
  fst run = ESP_OK /\
  read_bytes (pixel_buf (strip (snd run))) 2 3 = [2; 1; 3].
Proof.
  intros Hne Hf Hb run. subst run.
  rewrite set_pixel_grb by congruence. cbn [fst snd].
  split; [reflexivity|]. unfold with_buf; cbn -[read_bytes]. rewrite Hb.
  change (uint32 (1431655766 * 3)) with 2. apply put3_read.
Qed.

(** ** The log *)

Lemma extern_run c m :
  extern c m
  = (answer (length (calls m)),
     with_calls [mk_event c (answer (length (calls m))) 0] m).
Proof. reflexivity. Qed.

Lemma with_calls_twice evs1 evs2 m :
  with_calls evs2 (with_calls evs1 m) = with_calls (evs1 ++ evs2) m.
Proof. unfold with_calls; cbn. now rewrite <- app_assoc. Qed.

Lemma length_with_calls evs m :
  length (calls (with_calls evs m)) = (length evs + length (calls m))%nat.
Proof. unfold with_calls; cbn. rewrite length_app. lia. Qed.

Lemma calls_since_with_calls evs m :
  calls_since (length (calls m)) (with_calls evs m) = evs.
Proof.
  unfold calls_since, with_calls; cbn.
  rewrite skipn_app, skipn_all, Nat.sub_diag. reflexivity.
Qed.

(** ** [refresh] follows the protocol *)

Lemma refresh_refines_spec m :
  led_strip_rmt_refresh m
  = (fst (spec_refresh (strip m) (length (calls m))),
     with_calls (snd (spec_refresh (strip m) (length (calls m)))) m).
Proof.
  unfold led_strip_rmt_refresh, spec_refresh, bind, get_strip, ret.
  rewrite extern_run.
  destruct (Z.eqb_spec (answer (length (calls m))) ESP_OK) as [E0|E0];
    cbn [negb fst snd]; [|reflexivity].
  rewrite extern_run, length_with_calls.
  cbn [length Nat.add].
  destruct (Z.eqb_spec (answer (S (length (calls m)))) ESP_OK) as [E1|E1];
    cbn [negb fst snd].
  - rewrite extern_run, !with_calls_twice, !length_with_calls.
    cbn [length Nat.add app].
    destruct (Z.eqb_spec (answer (S (S (length (calls m))))) ESP_OK)
      as [E2|E2]; cbn [negb fst snd].
    + rewrite extern_run, !with_calls_twice, !length_with_calls.
      cbn [length Nat.add app].
      destruct (Z.eqb_spec (answer (S (S (S (length (calls m)))))) ESP_OK)
        as [E3|E3]; cbn [negb fst snd]; [|reflexivity].
      rewrite E3. reflexivity.
    + rewrite extern_run, !with_calls_twice, !length_with_calls.
      reflexivity.
  - rewrite extern_run, !with_calls_twice, !length_with_calls. reflexivity.
Qed.

Lemma refresh_keeps_strip m : strip (snd (led_strip_rmt_refresh m)) = strip m.
Proof. now rewrite refresh_refines_spec. Qed.

Lemma refresh_calls_since m :
  calls_since (length (calls m)) (snd (led_strip_rmt_refresh m))
  = snd (spec_refresh (strip m) (length (calls m))).
Proof. rewrite refresh_refines_spec. apply calls_since_with_calls. Qed.

Lemma spec_refresh_enables_once s k :
  count_calls is_enable (snd (spec_refresh s k)) = 1%nat.
Proof. spec_refresh_cases s k; reflexivity. Qed.

Lemma spec_refresh_payload s k e :
  In e (snd (spec_refresh s k)) -> is_transmit e = true ->
  transmit_payload e
  = Some (read_bytes (pixel_buf s) 0
            (Z.to_nat (uint32 (strip_len s * bytes_per_pixel s)))).
Proof.
  spec_refresh_cases s k; cbn [In]; intros H T;
    repeat (destruct H as [H|H]; [subst e; try discriminate T; reflexivity|]);
    contradiction.
Qed.

Lemma spec_refresh_submits s k :
  answer k = ESP_OK ->
  count_calls is_transmit (snd (spec_refresh s k)) = 1%nat.
Proof. intros E. spec_refresh_cases s k; try reflexivity; contradiction. Qed.

Lemma buffer_bytes_in_range s :
  buffer_fits s ->
  uint32 (strip_len s * bytes_per_pixel s) = strip_len s * bytes_per_pixel s.
Proof. intros (Hl & Hb & Hf). apply uint32_small. nia. Qed.

(** ** Transmission: the claims *)

(** C2 (amended): [refresh] makes exactly the calls enable, submit (the
    [strip_len * bytes_per_pixel] bytes of the buffer, loop count 0), wait
    (timeout -1, unbounded), disable, in this order.  When submit or wait
    fails it calls disable and returns the error of submit or wait, whatever
    disable returns; when enable fails it makes no other call, so disable is
    never invoked and the channel stays as it was.  On every other path
    disable is called exactly once, as the last call, and the channel is
    left disabled when that call returns [ESP_OK]; when that call fails the
    channel is left enabled. *)
Theorem C2_refresh_sequence (m : machine) :
  buffer_fits (strip m) ->
  let s := strip m in
  let k := length (calls m) in
  let n := strip_len s * bytes_per_pixel s in
  let enable := mk_event (Call_rmt_enable (rmt_chan s)) (answer k) 0 in
  let submit :=
    mk_event (Call_rmt_transmit (rmt_chan s) (strip_encoder s)
                (read_bytes (pixel_buf s) 0 (Z.to_nat n)) n 0)
             (answer (1 + k)) 0 in
  let wait :=
    mk_event (Call_rmt_tx_wait_all_done (rmt_chan s) (-1)) (answer (2 + k)) 0 in
  let disable j := mk_event (Call_rmt_disable (rmt_chan s)) (answer j) 0 in
  let run := led_strip_rmt_refresh m in
  let made := calls_since k (snd run) in
  (answer k <> ESP_OK ->
   run = (answer k, with_calls [enable] m)) /\
  (answer k = ESP_OK -> answer (1 + k) <> ESP_OK ->
   run = (answer (1 + k),
          with_calls [enable; submit; disable (2 + k)%nat] m)) /\
  (answer k = ESP_OK -> answer (1 + k) = ESP_OK ->
   answer (2 + k) <> ESP_OK ->
   run = (answer (2 + k),
          with_calls [enable; submit; wait; disable (3 + k)%nat] m)) /\
  (answer k = ESP_OK -> answer (1 + k) = ESP_OK ->
   answer (2 + k) = ESP_OK ->
   run = (answer (3 + k),
          with_calls [enable; submit; wait; disable (3 + k)%nat] m)) /\
  length (read_bytes (pixel_buf s) 0 (Z.to_nat n)) = Z.to_nat n /\
  (answer k <> ESP_OK ->
   count_calls is_disable made = 0%nat /\
   forall before, chan_enabled before made = before) /\
  (answer k = ESP_OK ->
   count_calls is_disable made = 1%nat /\
   exists earlier last,
     made = earlier ++ [last] /\ is_disable last = true /\
     (ev_ret last = ESP_OK ->
      forall before, chan_enabled before made = false) /\
     (ev_ret last <> ESP_OK ->
      forall before, chan_enabled before made = true)).
Proof.
  intros Hfit s k n enable submit wait disable run made.
  assert (Hrun : run = (fst (spec_refresh s k),
                        with_calls (snd (spec_refresh s k)) m))
    by apply refresh_refines_spec.
  assert (Hsince : made = snd (spec_refresh s k))
    by apply refresh_calls_since.
  rewrite Hsince, Hrun. clear Hrun Hsince run made.
  unfold spec_refresh. rewrite (buffer_bytes_in_range s Hfit).
  fold n enable submit wait.
  change (fun j => mk_event (Call_rmt_disable (rmt_chan s)) (answer j) 0)
    with disable.
  assert (Hoff : forall j before mid,
             answer k = ESP_OK ->
             (forall e, In e mid -> is_disable e = false /\ is_enable e = false) ->
             (ev_ret (disable j) = ESP_OK ->
              chan_enabled before (enable :: mid ++ [disable j]) = false) /\
             (ev_ret (disable j) <> ESP_OK ->
              chan_enabled before (enable :: mid ++ [disable j]) = true)).
  { intros j before mid E0 Hmid. unfold chan_enabled.
    cbn [fold_left]. rewrite fold_left_app.
    assert (Hen : chan_step before enable = true)
      by (unfold chan_step; cbn; now rewrite E0).
    rewrite Hen.
    assert (Hkeep : fold_left chan_step mid true = true).
    { clear -Hmid. induction mid as [|e mid IH]; [reflexivity|].
      cbn [fold_left].
      assert (He : chan_step true e = true).
      { destruct (Hmid e (or_introl eq_refl)) as [Hd He].
        unfold chan_step. unfold is_disable in Hd. unfold is_enable in He.
        destruct (ev_call e); try reflexivity; discriminate. }
      rewrite He. apply IH. intros e' H'. apply Hmid. now right. }
    rewrite Hkeep. cbn [fold_left]. unfold chan_step. cbn [ev_call disable].
    split; intros Hr.
    - now rewrite Hr.
    - cbn [ev_ret] in Hr. cbn [ev_ret]. now rewrite (proj2 (Z.eqb_neq _ _) Hr). }
  destruct (Z.eqb_spec (answer k) ESP_OK) as [E0|E0];
    [destruct (Z.eqb_spec (answer (1 + k)) ESP_OK) as [E1|E1];
     [destruct (Z.eqb_spec (answer (2 + k)) ESP_OK) as [E2|E2]|]|];
    cbn [negb fst snd].
  - split; [congruence|]. split; [congruence|]. split; [congruence|].
    split; [reflexivity|]. split; [apply read_bytes_length|].
    split; [congruence|]. intros _. split; [reflexivity|].
    exists [enable; submit; wait], (disable (3 + k)%nat).
    split; [reflexivity|]. split; [reflexivity|].
    split; intros Hr before;
      apply (Hoff (3 + k)%nat before [submit; wait] E0);
      try exact Hr;
      intros e [<-|[<-|[]]]; split; reflexivity.
  - split; [congruence|]. split; [congruence|]. split; [reflexivity|].
    split; [congruence|]. split; [apply read_bytes_length|].
    split; [congruence|]. intros _. split; [reflexivity|].
    exists [enable; submit; wait], (disable (3 + k)%nat).
    split; [reflexivity|]. split; [reflexivity|].
    split; intros Hr before;
      apply (Hoff (3 + k)%nat before [submit; wait] E0);
      try exact Hr;
      intros e [<-|[<-|[]]]; split; reflexivity.
  - split; [congruence|]. split; [reflexivity|]. split; [congruence|].
    split; [congruence|]. split; [apply read_bytes_length|].
    split; [congruence|]. intros _. split; [reflexivity|].
    exists [enable; submit], (disable (2 + k)%nat).
    split; [reflexivity|]. split; [reflexivity|].
    split; intros Hr before;
      apply (Hoff (2 + k)%nat before [submit] E0);
      try exact Hr;
      intros e [<-|[]]; split; reflexivity.
  - split; [reflexivity|]. split; [congruence|]. split; [congruence|].
    split; [congruence|]. split; [apply read_bytes_length|].
    split; [|congruence]. intros _. split; [reflexivity|].
    intros before. unfold chan_enabled, chan_step. cbn.
    now rewrite (proj2 (Z.eqb_neq _ _) E0).
Qed.

(** C5: [clear] sets the [strip_len * bytes_per_pixel] bytes of the buffer
    to zero, touches no other byte, and then runs [refresh] once, on the
    zeroed buffer: one enable call, and the frame submitted is all zero. *)
Theorem C5_clear_zeroes_then_refreshes (m : machine) :
  buffer_fits (strip m) ->
  let k := length (calls m) in
  let n := strip_len (strip m) * bytes_per_pixel (strip m) in
  let zeroed := with_buf (memset (pixel_buf (strip m)) 0 n) m in
  let run := led_strip_rmt_clear m in
  run = led_strip_rmt_refresh zeroed /\
  strip (snd run) = strip zeroed /\
  (forall a, 0 <= a < n -> pixel_buf (strip (snd run)) a = 0) /\
  (forall a, ~ (0 <= a < n) ->
             pixel_buf (strip (snd run)) a = pixel_buf (strip m) a) /\
  count_calls is_enable (calls_since k (snd run)) = 1%nat /\
  (forall e, In e (calls_since k (snd run)) -> is_transmit e = true ->
             transmit_payload e = Some (repeat 0 (Z.to_nat n))) /\
  (answer k = ESP_OK ->
   count_calls is_transmit (calls_since k (snd run)) = 1%nat).
Proof.
  intros Hfit k n zeroed run.
  assert (Hrun : run = led_strip_rmt_refresh zeroed).
  { subst run zeroed n. unfold led_strip_rmt_clear, bind, get_strip,
                        memset_pixel_buf, with_buf.
    now rewrite (buffer_bytes_in_range _ Hfit). }
  assert (Hstrip : strip (snd run) = strip zeroed)
    by (rewrite Hrun; apply refresh_keeps_strip).
  assert (Hsince : calls_since k (snd run)
                   = snd (spec_refresh (strip zeroed) k))
    by (rewrite Hrun; apply (refresh_calls_since zeroed)).
  split; [exact Hrun|]. split; [exact Hstrip|].
  rewrite Hstrip, Hsince. subst zeroed. cbn [with_buf strip set_pixel_buf pixel_buf].
  split; [|split; [|split; [|split]]].
  - intros a Ha. now rewrite memset_inside.
  - intros a Ha. now rewrite memset_outside.
  - apply spec_refresh_enables_once.
  - intros e He Te. rewrite (spec_refresh_payload _ _ _ He Te).
    cbn [pixel_buf strip_len bytes_per_pixel set_pixel_buf].
    fold n. f_equal.
    assert (Hn : uint32 n = n) by apply (buffer_bytes_in_range _ Hfit).
    rewrite Hn. apply read_bytes_const.
    intros a Ha. apply memset_inside.
    destruct Hfit as (Hl & Hb & _). assert (0 <= n) by (subst n; nia). lia.
  - apply spec_refresh_submits.
Qed.

(** C8: [refresh] leaves the strip object, and so the pixel buffer, as it
    found it; two [refresh] calls in a row therefore hand the same
    [strip_len * bytes_per_pixel] bytes to every submit they make. *)
Theorem C8_refresh_reads_only (m : machine) :
  buffer_fits (strip m) ->
  let n := strip_len (strip m) * bytes_per_pixel (strip m) in
  let frame := read_bytes (pixel_buf (strip m)) 0 (Z.to_nat n) in
  let m1 := snd (led_strip_rmt_refresh m) in
  let m2 := snd (led_strip_rmt_refresh m1) in
  let k := length (calls m) in
  let k1 := length (calls m1) in
  strip m1 = strip m /\ strip m2 = strip m /\
  length frame = Z.to_nat n /\
  (forall e, In e (calls_since k m1) -> is_transmit e = true ->
             transmit_payload e = Some frame) /\
  (forall e, In e (calls_since k1 m2) -> is_transmit e = true ->
             transmit_payload e = Some frame) /\
  (answer k = ESP_OK -> count_calls is_transmit (calls_since k m1) = 1%nat) /\
  (answer k1 = ESP_OK ->
   count_calls is_transmit (calls_since k1 m2) = 1%nat).
Proof.
  intros Hfit n frame m1 m2 k k1.
  assert (H1 : strip m1 = strip m) by apply refresh_keeps_strip.
  assert (H2 : strip m2 = strip m)
    by (subst m2; now rewrite refresh_keeps_strip).
  assert (Hframe : frame
                   = read_bytes (pixel_buf (strip m)) 0
                       (Z.to_nat (uint32 (strip_len (strip m)
                                          * bytes_per_pixel (strip m)))))
    by (now rewrite (buffer_bytes_in_range _ Hfit)).
  split; [exact H1|]. split; [exact H2|].
  split; [apply read_bytes_length|].
  subst m2 k1. rewrite (refresh_calls_since m1).
  subst m1 k. rewrite (refresh_calls_since m).
  rewrite H1, Hframe.
  split; [|split; [|split]].
  - apply spec_refresh_payload.
  - apply spec_refresh_payload.
  - apply spec_refresh_submits.
  - apply spec_refresh_submits.
Qed.

(** ** Construction and destruction *)

Lemma eqb_ESP_OK_false a : a <> ESP_OK -> (a =? ESP_OK) = false.
Proof. intros H. now apply Z.eqb_neq. Qed.

Lemma eqb_zero_false a : a <> 0 -> (a =? 0) = false.
Proof. intros H. now apply Z.eqb_neq. Qed.

(** What [led_strip_new_rmt_device] makes of well-formed arguments with a
    recognised format: the calls and the outcome, by what the allocator and
    the two constructors answer. *)
Lemma new_rmt_device_run led_config rmt_config log bpp :
  cfg_led_pixel_format led_config < LED_PIXEL_FORMAT_INVALID ->
  (if cfg_led_pixel_format led_config =? LED_PIXEL_FORMAT_GRBW then Some 4
   else if (cfg_led_pixel_format led_config =? LED_PIXEL_FORMAT_GRB)
           || (cfg_led_pixel_format led_config =? LED_PIXEL_FORMAT_RGB)
        then Some 3 else None) = Some bpp ->
  let k := length log in
  let size := uint32 (sizeof_led_strip_rmt_obj
                      + uint32 (max_leds led_config * bpp)) in
  let resolution := if negb (resolution_hz rmt_config =? 0)
                    then resolution_hz rmt_config
                    else LED_STRIP_RMT_DEFAULT_RESOLUTION in
  let chan_config :=
    mk_rmt_tx_channel_config
      (if negb (clk_src rmt_config =? 0)
       then clk_src rmt_config else RMT_CLK_SRC_DEFAULT)
      (strip_gpio_num led_config)
      (if negb (mem_block_symbols rmt_config =? 0)
       then mem_block_symbols rmt_config
       else LED_STRIP_RMT_DEFAULT_MEM_BLOCK_SYMBOLS)
      resolution LED_STRIP_RMT_DEFAULT_TRANS_QUEUE_SIZE
      (with_dma rmt_config) (invert_out led_config) in
  let enc_config :=
    mk_led_strip_encoder_config resolution (led_model led_config) in
  let ptr := answer k in
  let chan := Z.pos (fresh_handle (1 + k)) in
  let enc := Z.pos (fresh_handle (2 + k)) in
  let e_calloc := mk_event (Call_calloc 1 size) ptr 0 in
  let e_chan h := mk_event (Call_rmt_new_tx_channel chan_config)
                           (answer (1 + k)) h in
  let e_enc h := mk_event (Call_rmt_new_led_strip_encoder enc_config)
                          (answer (2 + k)) h in
  let run := led_strip_new_rmt_device (Some led_config) (Some rmt_config)
                                      true log in
  (ptr = 0 -> run = ((ESP_ERR_NO_MEM, None), log ++ [e_calloc])) /\
  (ptr <> 0 -> answer (1 + k) <> ESP_OK ->
   run = ((answer (1 + k), None),
          log ++ [e_calloc; e_chan 0; mk_event (Call_free ptr) 0 0])) /\
  (ptr <> 0 -> answer (1 + k) = ESP_OK -> answer (2 + k) <> ESP_OK ->
   run = ((answer (2 + k), None),
          log ++ [e_calloc; e_chan chan; e_enc 0;
                  mk_event (Call_rmt_del_channel chan) (answer (3 + k)) 0;
                  mk_event (Call_free ptr) 0 0])) /\
  (ptr <> 0 -> answer (1 + k) = ESP_OK -> answer (2 + k) = ESP_OK ->
   run = ((ESP_OK,
           Some (ptr,
                 mk_led_strip_rmt_obj (cfg_led_pixel_format led_config)
                   chan enc (max_leds led_config) bpp
                   (memset beyond 0 (size - sizeof_led_strip_rmt_obj)))),
          log ++ [e_calloc; e_chan chan; e_enc enc])).
Proof.
  intros Hlt Hbpp k size resolution chan_config enc_config ptr chan enc
         e_calloc e_chan e_enc run.
  subst run e_enc e_chan e_calloc enc chan ptr enc_config chan_config
        resolution k.
  cbn [Nat.add]. unfold led_strip_new_rmt_device.
  destruct (Z.ltb_spec (cfg_led_pixel_format led_config)
                       LED_PIXEL_FORMAT_INVALID); [|lia].
  cbn [negb]. rewrite Hbpp.
  unfold do_call, do_new, new_rmt_device_err, do_void. fold size.
  rewrite !length_app. cbn [length]. rewrite !Nat.add_1_r.
  repeat split.
  - intros H0. rewrite (proj2 (Z.eqb_eq _ 0) H0). reflexivity.
  - intros H0 H1. rewrite (eqb_zero_false _ H0), (eqb_ESP_OK_false _ H1).
    cbn. rewrite <- !app_assoc. reflexivity.
  - intros H0 H1 H2.
    rewrite (eqb_zero_false _ H0), H1, (eqb_ESP_OK_false _ H2).
    cbn. rewrite !length_app. cbn [length]. rewrite !Nat.add_1_r.
    rewrite <- !app_assoc. reflexivity.
  - intros H0 H1 H2. rewrite (eqb_zero_false _ H0), H1, H2.
    cbn. rewrite <- !app_assoc. reflexivity.
Qed.

Lemma outstanding_after_enc_failure size p cc a1 h ec a2 a3 :
  p <> 0 -> a1 = ESP_OK -> a2 <> ESP_OK ->
  let made := [mk_event (Call_calloc 1 size) p 0;
               mk_event (Call_rmt_new_tx_channel cc) a1 h;
               mk_event (Call_rmt_new_led_strip_encoder ec) a2 0;
               mk_event (Call_rmt_del_channel h) a3 0;
               mk_event (Call_free p) 0 0] in
  (a3 = ESP_OK -> outstanding made = []) /\
  (a3 <> ESP_OK -> outstanding made = [Res_chan h]).
Proof.
  intros Hp H1 H2 made. subst made. unfold outstanding, held_step; cbn.
  rewrite (eqb_zero_false _ Hp), H1, (eqb_ESP_OK_false _ H2). cbn.
  split; intros H3.
  - rewrite H3. cbn. unfold release; cbn. rewrite !Z.eqb_refl. reflexivity.
  - rewrite (eqb_ESP_OK_false _ H3). unfold release; cbn.
    rewrite !Z.eqb_refl. reflexivity.
Qed.

Lemma outstanding_after_chan_failure size p cc a1 :
  p <> 0 -> a1 <> ESP_OK ->
  outstanding [mk_event (Call_calloc 1 size) p 0;
               mk_event (Call_rmt_new_tx_channel cc) a1 0;
               mk_event (Call_free p) 0 0] = [].
Proof.
  intros Hp H1. unfold outstanding, held_step; cbn.
  rewrite (eqb_zero_false _ Hp), (eqb_ESP_OK_false _ H1). cbn.
  unfold release; cbn. rewrite !Z.eqb_refl. reflexivity.
Qed.

Lemma outstanding_after_success size p cc a1 h ec a2 h' :
  p <> 0 -> a1 = ESP_OK -> a2 = ESP_OK ->
  outstanding [mk_event (Call_calloc 1 size) p 0;
               mk_event (Call_rmt_new_tx_channel cc) a1 h;
               mk_event (Call_rmt_new_led_strip_encoder ec) a2 h']
  = [Res_mem p; Res_chan h; Res_enc h'].
Proof.
  intros Hp H1 H2. unfold outstanding, held_step; cbn.
  rewrite (eqb_zero_false _ Hp), H1, H2. reflexivity.
Qed.

(** C9: [led_strip_rmt_del] calls [rmt_del_channel], then
    [rmt_del_encoder], then [free]; [free] is called only when both
    deletions returned [ESP_OK]; when the channel or the encoder deletion
    fails, that error is returned and the memory is not freed. *)
Theorem C9_del_frees_only_after_both_releases (m : machine) :
  let s := strip m in
  let k := length (calls m) in
  let del_chan :=
    mk_event (Call_rmt_del_channel (rmt_chan s)) (answer k) 0 in
  let del_enc :=
    mk_event (Call_rmt_del_encoder (strip_encoder s)) (answer (1 + k)) 0 in
  let free_obj := mk_event (Call_free (self m)) 0 0 in
  let run := led_strip_rmt_del m in
  (answer k <> ESP_OK ->
   run = (answer k, with_calls [del_chan] m)) /\
  (answer k = ESP_OK -> answer (1 + k) <> ESP_OK ->
   run = (answer (1 + k), with_calls [del_chan; del_enc] m)) /\
  (answer k = ESP_OK -> answer (1 + k) = ESP_OK ->
   run = (ESP_OK, with_calls [del_chan; del_enc; free_obj] m)) /\
  (answer k <> ESP_OK \/ answer (1 + k) <> ESP_OK ->
   fst run <> ESP_OK /\
   count_calls is_free (calls_since k (snd run)) = 0%nat) /\
  (count_calls is_free (calls_since k (snd run)) = 1%nat <->
   answer k = ESP_OK /\ answer (1 + k) = ESP_OK).
Proof.
  intros s k del_chan del_enc free_obj run.
  assert (Hrun :
            run = if negb (answer k =? ESP_OK)
                  then (answer k, with_calls [del_chan] m)
                  else if negb (answer (1 + k) =? ESP_OK)
                       then (answer (1 + k), with_calls [del_chan; del_enc] m)
                       else (ESP_OK,
                             with_calls [del_chan; del_enc; free_obj] m)).
  { subst run. unfold led_strip_rmt_del, bind, get_strip, get_self, ret,
               extern_void, do_void.
    rewrite extern_run. fold k s del_chan.
    destruct (Z.eqb_spec (answer k) ESP_OK); cbn [negb]; [|reflexivity].
    rewrite extern_run, !with_calls_twice, !length_with_calls.
    cbn [length Nat.add app]. fold k.
    destruct (Z.eqb_spec (answer (S k)) ESP_OK); cbn [negb]; [|reflexivity].
    unfold with_calls; cbn. rewrite <- !app_assoc. reflexivity. }
  rewrite Hrun. clear Hrun.
  destruct (Z.eqb_spec (answer k) ESP_OK) as [E0|E0];
    [destruct (Z.eqb_spec (answer (1 + k)) ESP_OK) as [E1|E1]|];
    cbn [negb fst snd]; subst k; rewrite calls_since_with_calls.
  - split; [congruence|]. split; [congruence|]. split; [reflexivity|].
    split; [intros [H|H]; congruence|]. split; [now split | reflexivity].
  - split; [congruence|]. split; [reflexivity|]. split; [congruence|].
    split; [intros _; now split|]. split; [discriminate | intros [_ H]; congruence].
  - split; [reflexivity|]. split; [congruence|]. split; [congruence|].
    split; [intros _; now split|]. split; [discriminate | intros [H _]; congruence].
Qed.

(** ** The fields of the strip object

    The byte store keeps the fields apart from the bytes, so these lemmas
    speak of the target for stores that are clear of the header; they are
    used below for indices inside the buffer only. *)




Lemma refresh_keeps_fields m :
  same_fields (strip m) (strip (snd (led_strip_rmt_refresh m))).
Proof. rewrite refresh_keeps_strip. now repeat split. Qed.

Lemma clear_keeps_fields m :
  same_fields (strip m) (strip (snd (led_strip_rmt_clear m))).
Proof.
  unfold led_strip_rmt_clear, bind, get_strip, memset_pixel_buf.
  rewrite refresh_keeps_strip. now repeat split.
Qed.


(** ** More on the pixel writes *)



(** The shape of a run of [set_pixel]: the machine as it was, or three
    stores from [start] on. *)
Lemma set_pixel_shape m index red green blue :
  let run := led_strip_rmt_set_pixel index red green blue m in
  let start := uint32 (index * bytes_per_pixel (strip m)) in
  (fst run = ESP_ERR_INVALID_ARG /\ snd run = m) \/
  (fst run = ESP_OK /\
   exists x y z, snd run = with_buf (put3 (pixel_buf (strip m)) start x y z) m
                 /\ (led_pixel_format (strip m) = LED_PIXEL_FORMAT_RGB \/
                     led_pixel_format (strip m) = LED_PIXEL_FORMAT_GRB)
                 /\ (x, y, z)
                    = if led_pixel_format (strip m) =? LED_PIXEL_FORMAT_RGB
                      then (red, green, blue) else (green, red, blue)).
Proof.
  intros run start. subst run start.
  destruct (Z.eqb_spec (led_pixel_format (strip m)) LED_PIXEL_FORMAT_RGB)
    as [Hf|Hf].
  - right. rewrite (set_pixel_rgb _ _ _ _ _ Hf). split; [reflexivity|].
    exists red, green, blue. auto.
  - destruct (Z.eq_dec (led_pixel_format (strip m)) LED_PIXEL_FORMAT_GRB)
      as [Hg|Hg].
    + right. rewrite (set_pixel_grb _ _ _ _ _ Hf Hg). split; [reflexivity|].
      exists green, red, blue. auto.
    + left. now rewrite (set_pixel_other _ _ _ _ _ Hf Hg).
Qed.


Lemma set_pixel_ok_bytes m index red green blue :
  led_pixel_format (strip m) = LED_PIXEL_FORMAT_RGB \/
  led_pixel_format (strip m) = LED_PIXEL_FORMAT_GRB ->
  let run := led_strip_rmt_set_pixel index red green blue m in
  fst run = ESP_OK /\
  read_bytes (buf_after run) (uint32 (index * bytes_per_pixel (strip m))) 3
  = (if led_pixel_format (strip m) =? LED_PIXEL_FORMAT_RGB
     then [red mod 256; green mod 256; blue mod 256]
     else [green mod 256; red mod 256; blue mod 256]).
Proof.
  intros Hf run. subst run. unfold buf_after.
  destruct (Z.eqb_spec (led_pixel_format (strip m)) LED_PIXEL_FORMAT_RGB)
    as [Hr|Hr].
  - rewrite (set_pixel_rgb _ _ _ _ _ Hr). split; [reflexivity|].
    unfold with_buf; cbn. apply put3_read.
  - assert (Hg : led_pixel_format (strip m) = LED_PIXEL_FORMAT_GRB)
      by (destruct Hf; [contradiction|assumption]).
    rewrite (set_pixel_grb _ _ _ _ _ Hr Hg). split; [reflexivity|].
    unfold with_buf; cbn. apply put3_read.
Qed.



(** X3: with an index at or past [strip_len] whose three stores are clear
    of the header (they end before the last [sizeof (led_strip_rmt_obj)]
    offsets below 2^32, so they neither wrap nor reach the fields of the
    object), [set_pixel] on an RGB or GRB strip still returns [ESP_OK]: it
    leaves every byte of the buffer as it was and stores its three bytes
    behind the buffer. *)
Theorem X3_set_pixel_past_the_end (m : machine) (index red green blue : Z) :
  led_pixel_format (strip m) = LED_PIXEL_FORMAT_RGB \/
  led_pixel_format (strip m) = LED_PIXEL_FORMAT_GRB ->
  0 <= bytes_per_pixel (strip m) ->
  0 <= strip_len (strip m) <= index ->
  clear_of_header (index * bytes_per_pixel (strip m)) 3 ->
  let run := led_strip_rmt_set_pixel index red green blue m in
  let off := index * bytes_per_pixel (strip m) in
  fst run = ESP_OK /\
  (forall a, in_buffer (strip m) a -> buf_after run a = pixel_buf (strip m) a) /\
  strip_len (strip m) * bytes_per_pixel (strip m) <= off /\
  read_bytes (buf_after run) off 3
  = (if led_pixel_format (strip m) =? LED_PIXEL_FORMAT_RGB
     then [red mod 256; green mod 256; blue mod 256]
     else [green mod 256; red mod 256; blue mod 256]).
Proof.
  intros Hf Hb Hi (Hc0 & Hc1 & Hc2) run off. fold off in Hc0, Hc1.
  assert (Hoff : uint32 (index * bytes_per_pixel (strip m)) = off)
    by (apply uint32_small; subst off; lia).
  assert (Hle : strip_len (strip m) * bytes_per_pixel (strip m) <= off)
    by (subst off; apply Z.mul_le_mono_nonneg_r; lia).
  destruct (set_pixel_ok_bytes m index red green blue Hf) as [Hok Hread].
  fold run in Hok, Hread. rewrite Hoff in Hread.
  split; [exact Hok|]. split; [|split; [exact Hle | exact Hread]].
  intros a Ha. unfold in_buffer in Ha. subst run. unfold buf_after.
  destruct (set_pixel_shape m index red green blue)
    as [[_ ->] | (_ & x & y & z & -> & _)]; [reflexivity|].
  unfold with_buf; cbn. rewrite Hoff. apply put3_frame. lia.
Qed.

Lemma uint32_times_three_inverse t :
  0 <= t < 4294967296 ->
  uint32 (uint32 (t * 2863311531) * 3) = t.
Proof.
  intros H. unfold uint32.
  rewrite Z.mul_mod_idemp_l by lia.
  replace (t * 2863311531 * 3) with (t + t * 2 * 4294967296) by ring.
  rewrite Z.mod_add by lia. now apply Z.mod_small.
Qed.

(** X4: on an RGB or GRB strip with three bytes per pixel, every offset
    below 2^32 is where [set_pixel] stores for some 32-bit index: the
    index [offset * 2863311531 mod 2^32] is accepted and its three bytes
    land at that offset. *)
Theorem X4_set_pixel_reaches_every_offset
        (m : machine) (target red green blue : Z) :
  led_pixel_format (strip m) = LED_PIXEL_FORMAT_RGB \/
  led_pixel_format (strip m) = LED_PIXEL_FORMAT_GRB ->
  bytes_per_pixel (strip m) = 3 ->
  0 <= target < 4294967296 ->
  let index := uint32 (target * 2863311531) in
  let run := led_strip_rmt_set_pixel index red green blue m in
  0 <= index < 4294967296 /\
  fst run = ESP_OK /\
  read_bytes (buf_after run) target 3
  = (if led_pixel_format (strip m) =? LED_PIXEL_FORMAT_RGB
     then [red mod 256; green mod 256; blue mod 256]
     else [green mod 256; red mod 256; blue mod 256]).
Proof.
  intros Hf Hb Ht index run.
  split; [unfold index, uint32; apply Z.mod_pos_bound; lia|].
  destruct (set_pixel_ok_bytes m index red green blue Hf) as [Hok Hread].
  fold run in Hok, Hread. split; [exact Hok|].
  rewrite Hb in Hread. unfold index in Hread.
  now rewrite (uint32_times_three_inverse _ Ht) in Hread.
Qed.








(** ** More on transmission *)


(** X8: [refresh] returns [ESP_OK] exactly when enable, submit, wait and
    disable all returned [ESP_OK]; it makes one, three or four calls, and
    four when it succeeds. *)
Theorem X8_refresh_ok_iff_all_calls_ok (m : machine) :
  let k := length (calls m) in
  let run := led_strip_rmt_refresh m in
  (fst run = ESP_OK <->
   answer k = ESP_OK /\ answer (1 + k) = ESP_OK /\
   answer (2 + k) = ESP_OK /\ answer (3 + k) = ESP_OK) /\
  (fst run = ESP_OK -> length (calls_since k (snd run)) = 4%nat) /\
  (length (calls_since k (snd run)) = 1%nat \/
   length (calls_since k (snd run)) = 3%nat \/
   length (calls_since k (snd run)) = 4%nat).
Proof.
  intros k run. subst run k.
  rewrite refresh_calls_since, refresh_refines_spec. cbn [fst].
  unfold spec_refresh.
  destruct (Z.eqb_spec (answer (length (calls m))) ESP_OK) as [E0|E0];
    [destruct (Z.eqb_spec (answer (1 + length (calls m))) ESP_OK) as [E1|E1];
     [destruct (Z.eqb_spec (answer (2 + length (calls m))) ESP_OK)
       as [E2|E2]|]|];
    cbn [negb fst snd length].
  - split; [|split]; [split; [intros E3; now repeat split
                             | intros (_ & _ & _ & E3); exact E3]
                     | reflexivity | auto].
  - split; [|split]; [split; [congruence | intros (_ & _ & E & _); congruence]
                     | congruence | auto].
  - split; [|split]; [split; [congruence | intros (_ & E & _); congruence]
                     | congruence | auto].
  - split; [|split]; [split; [congruence | intros (E & _); congruence]
                     | congruence | auto].
Qed.


(** ** More on construction and destruction *)

Lemma width_of_format_cases format bpp :
  width_of_format format = Some bpp ->
  (format = LED_PIXEL_FORMAT_GRBW /\ bpp = 4) \/
  (format <> LED_PIXEL_FORMAT_GRBW /\
   (format = LED_PIXEL_FORMAT_GRB \/ format = LED_PIXEL_FORMAT_RGB) /\
   bpp = 3).
Proof.
  unfold width_of_format.
  destruct (Z.eqb_spec format LED_PIXEL_FORMAT_GRBW).
  - intros [= <-]. now left.
  - destruct (Z.eqb_spec format LED_PIXEL_FORMAT_GRB);
      destruct (Z.eqb_spec format LED_PIXEL_FORMAT_RGB);
      cbn; intros [= <-]; right; auto.
Qed.

Lemma width_of_format_recognised format :
  format = LED_PIXEL_FORMAT_GRBW \/ format = LED_PIXEL_FORMAT_GRB \/
  format = LED_PIXEL_FORMAT_RGB ->
  exists bpp, width_of_format format = Some bpp.
Proof.
  unfold width_of_format. intros H.
  destruct (Z.eqb_spec format LED_PIXEL_FORMAT_GRBW); [eauto|].
  destruct (Z.eqb_spec format LED_PIXEL_FORMAT_GRB); [cbn; eauto|].
  destruct (Z.eqb_spec format LED_PIXEL_FORMAT_RGB); [cbn; eauto|].
  exfalso. destruct H as [H|[H|H]]; contradiction.
Qed.

Lemma new_rmt_device_unrecognised lc rc log :
  width_of_format (cfg_led_pixel_format lc) = None ->
  led_strip_new_rmt_device (Some lc) (Some rc) true log
  = ((ESP_ERR_INVALID_ARG, None), log).
Proof.
  intros H. unfold led_strip_new_rmt_device.
  destruct (cfg_led_pixel_format lc <? LED_PIXEL_FORMAT_INVALID);
    cbn [negb]; [|reflexivity].
  unfold width_of_format in H. now rewrite H.
Qed.

Lemma new_rmt_device_not_below_invalid lc rc log :
  LED_PIXEL_FORMAT_INVALID <= cfg_led_pixel_format lc ->
  led_strip_new_rmt_device (Some lc) (Some rc) true log
  = ((ESP_ERR_INVALID_ARG, None), log).
Proof.
  intros H. unfold led_strip_new_rmt_device.
  destruct (Z.ltb_spec (cfg_led_pixel_format lc) LED_PIXEL_FORMAT_INVALID);
    [lia|reflexivity].
Qed.

(** A successful construction, taken apart. *)
Lemma new_rmt_device_ok_inv lc rc log :
  fst (fst (led_strip_new_rmt_device (Some lc) (Some rc) true log)) = ESP_OK ->
  cfg_led_pixel_format lc < LED_PIXEL_FORMAT_INVALID /\
  exists bpp,
    width_of_format (cfg_led_pixel_format lc) = Some bpp /\
    answer (length log) <> 0 /\
    answer (1 + length log) = ESP_OK /\
    answer (2 + length log) = ESP_OK.
Proof.
  intros Hok.
  destruct (Z_lt_le_dec (cfg_led_pixel_format lc) LED_PIXEL_FORMAT_INVALID)
    as [Hlt|Hge];
    [|rewrite new_rmt_device_not_below_invalid in Hok by assumption;
      discriminate Hok].
  split; [exact Hlt|].
  destruct (width_of_format (cfg_led_pixel_format lc)) as [bpp|] eqn:Hw;
    [|rewrite new_rmt_device_unrecognised in Hok by assumption;
      discriminate Hok].
  exists bpp. split; [reflexivity|].
  destruct (new_rmt_device_run lc rc log bpp Hlt Hw) as (R0 & R1 & R2 & _).
  destruct (Z.eq_dec (answer (length log)) 0) as [A0|A0];
    [rewrite (R0 A0) in Hok; discriminate Hok|].
  destruct (Z.eq_dec (answer (1 + length log)) ESP_OK) as [A1|A1];
    [|rewrite (R1 A0 A1) in Hok; cbn in Hok; contradiction].
  destruct (Z.eq_dec (answer (2 + length log)) ESP_OK) as [A2|A2];
    [|rewrite (R2 A0 A1 A2) in Hok; cbn in Hok; contradiction].
  auto.
Qed.

(** X10: with its three arguments present, [led_strip_new_rmt_device]
    returns [ESP_OK] exactly when the format is below
    [LED_PIXEL_FORMAT_INVALID] and is GRBW, GRB or RGB, [calloc] returns
    memory and both constructors return [ESP_OK]; a failed [calloc] gives
    [ESP_ERR_NO_MEM] and a failed constructor gives its own error code. *)
Theorem X10_new_device_ok_iff
        (lc : led_strip_config_t) (rc : led_strip_rmt_config_t)
        (log : list event) :
  let k := length log in
  let format := cfg_led_pixel_format lc in
  let run := led_strip_new_rmt_device (Some lc) (Some rc) true log in
  let recognised := format < LED_PIXEL_FORMAT_INVALID /\
                    (format = LED_PIXEL_FORMAT_GRBW \/
                     format = LED_PIXEL_FORMAT_GRB \/
                     format = LED_PIXEL_FORMAT_RGB) in
  (fst (fst run) = ESP_OK <->
   recognised /\ answer k <> 0 /\
   answer (1 + k) = ESP_OK /\ answer (2 + k) = ESP_OK) /\
  (recognised -> answer k = 0 -> fst (fst run) = ESP_ERR_NO_MEM) /\
  (recognised -> answer k <> 0 -> answer (1 + k) <> ESP_OK ->
   fst (fst run) = answer (1 + k)) /\
  (recognised -> answer k <> 0 -> answer (1 + k) = ESP_OK ->
   answer (2 + k) <> ESP_OK -> fst (fst run) = answer (2 + k)).
Proof.
  intros k format run recognised.
  assert (Hrun : recognised ->
                 exists bpp,
                   (answer k = 0 -> run = ((ESP_ERR_NO_MEM, None),
                                           snd run)) /\
                   (answer k <> 0 -> answer (1 + k) <> ESP_OK ->
                    fst (fst run) = answer (1 + k)) /\
                   (answer k <> 0 -> answer (1 + k) = ESP_OK ->
                    answer (2 + k) <> ESP_OK ->
                    fst (fst run) = answer (2 + k)) /\
                   (answer k <> 0 -> answer (1 + k) = ESP_OK ->
                    answer (2 + k) = ESP_OK -> fst (fst run) = ESP_OK) /\
                   width_of_format format = Some bpp).
  { intros [Hlt Hrec].
    destruct (width_of_format_recognised format Hrec) as [bpp Hw].
    exists bpp.
    destruct (new_rmt_device_run lc rc log bpp Hlt Hw) as (R0 & R1 & R2 & R3).
    fold k run in R0, R1, R2, R3.
    split; [|split; [|split; [|split]]]; [| | | |exact Hw].
    - intros A0. now rewrite (R0 A0).
    - intros A0 A1. now rewrite (R1 A0 A1).
    - intros A0 A1 A2. now rewrite (R2 A0 A1 A2).
    - intros A0 A1 A2. now rewrite (R3 A0 A1 A2). }
  split; [split|split; [|split]].
  - intros Hok.
    destruct (new_rmt_device_ok_inv lc rc log Hok)
      as (Hlt & bpp & Hw & A0 & A1 & A2).
    split; [|auto]. split; [exact Hlt|].
    destruct (width_of_format_cases _ _ Hw) as [[H _]|(_ & [H|H] & _)]; auto.
  - intros (Hrec & A0 & A1 & A2).
    destruct (Hrun Hrec) as (bpp & _ & _ & _ & R3 & _). now apply R3.
  - intros Hrec A0.
    destruct (Hrun Hrec) as (bpp & R0 & _). now rewrite (R0 A0).
  - intros Hrec A0 A1.
    destruct (Hrun Hrec) as (bpp & _ & R1 & _). now apply R1.
  - intros Hrec A0 A1 A2.
    destruct (Hrun Hrec) as (bpp & _ & _ & R2 & _). now apply R2.
Qed.

(** The device a successful construction returns, and the calls made. *)
Lemma new_rmt_device_ok_device lc rc log :
  fst (fst (led_strip_new_rmt_device (Some lc) (Some rc) true log)) = ESP_OK ->
  exists bpp size cc ec,
    width_of_format (cfg_led_pixel_format lc) = Some bpp /\
    size = uint32 (sizeof_led_strip_rmt_obj
                   + uint32 (max_leds lc * bpp)) /\
    answer (length log) <> 0 /\
    led_strip_new_rmt_device (Some lc) (Some rc) true log
    = ((ESP_OK,
        Some (answer (length log),
              mk_led_strip_rmt_obj (cfg_led_pixel_format lc)
                (Z.pos (fresh_handle (1 + length log)))
                (Z.pos (fresh_handle (2 + length log)))
                (max_leds lc) bpp
                (memset beyond 0 (size - sizeof_led_strip_rmt_obj)))),
       log ++ [mk_event (Call_calloc 1 size) (answer (length log)) 0;
               mk_event (Call_rmt_new_tx_channel cc) ESP_OK
                        (Z.pos (fresh_handle (1 + length log)));
               mk_event (Call_rmt_new_led_strip_encoder ec) ESP_OK
                        (Z.pos (fresh_handle (2 + length log)))]).
Proof.
  intros Hok.
  destruct (new_rmt_device_ok_inv lc rc log Hok)
    as (Hlt & bpp & Hw & A0 & A1 & A2).
  destruct (new_rmt_device_run lc rc log bpp Hlt Hw) as (_ & _ & _ & R3).
  specialize (R3 A0 A1 A2). rewrite A1, A2 in R3.
  do 4 eexists. split; [exact Hw|]. split; [reflexivity|].
  split; [exact A0|]. exact R3.
Qed.

Lemma allocation_size_exact bpp leds :
  bpp = 3 \/ bpp = 4 -> 0 <= leds -> 0 <= sizeof_led_strip_rmt_obj ->
  sizeof_led_strip_rmt_obj + leds * 4 < 4294967296 ->
  uint32 (sizeof_led_strip_rmt_obj + uint32 (leds * bpp))
  - sizeof_led_strip_rmt_obj = leds * bpp.
Proof.
  intros Hb Hl Hs Hfit.
  rewrite (uint32_small (leds * bpp)) by (destruct Hb; subst; lia).
  rewrite uint32_small by (destruct Hb; subst; lia). lia.
Qed.

(** X11: the device [led_strip_new_rmt_device] returns is well formed when
    the allocation size does not wrap: its length is [max_leds], its
    buffer fits, every byte of the buffer is zero, and its address and
    both handles are not NULL. *)
Theorem X11_new_device_is_well_formed
        (lc : led_strip_config_t) (rc : led_strip_rmt_config_t)
        (log : list event) :
  let run := led_strip_new_rmt_device (Some lc) (Some rc) true log in
  fst (fst run) = ESP_OK ->
  0 <= max_leds lc -> 0 <= sizeof_led_strip_rmt_obj ->
  sizeof_led_strip_rmt_obj + max_leds lc * 4 < 4294967296 ->
  exists p s,
    snd (fst run) = Some (p, s) /\
    strip_len s = max_leds lc /\
    led_pixel_format s = cfg_led_pixel_format lc /\
    (bytes_per_pixel s = 3 \/ bytes_per_pixel s = 4) /\
    buffer_fits s /\
    (forall a, in_buffer s a -> pixel_buf s a = 0) /\
    p <> 0 /\ rmt_chan s <> 0 /\ strip_encoder s <> 0.
Proof.
  intros run Hok Hl Hs Hfit.
  destruct (new_rmt_device_ok_device lc rc log Hok)
    as (bpp & size & cc & ec & Hw & Hsize & A0 & Hrun).
  fold run in Hrun. rewrite Hrun. cbn [fst snd].
  assert (Hb : bpp = 3 \/ bpp = 4)
    by (destruct (width_of_format_cases _ _ Hw) as [[_ ->]|(_ & _ & ->)];
        auto).
  do 2 eexists. split; [reflexivity|]. cbn.
  split; [reflexivity|]. split; [reflexivity|]. split; [exact Hb|].
  split; [|split; [|split; [exact A0|split; discriminate]]].
  - unfold buffer_fits; cbn. destruct Hb; subst bpp; lia.
  - unfold in_buffer; cbn. intros a Ha.
    rewrite Hsize, (allocation_size_exact _ _ Hb Hl Hs Hfit).
    now apply memset_inside.
Qed.

(** X12: a device just constructed is dark.  [refresh] on it submits
    [max_leds * bytes_per_pixel] zero bytes, if it submits at all (and it
    does when enable succeeds). *)
Theorem X12_new_device_sends_zero_frame
        (lc : led_strip_config_t) (rc : led_strip_rmt_config_t)
        (log : list event) :
  let run := led_strip_new_rmt_device (Some lc) (Some rc) true log in
  fst (fst run) = ESP_OK ->
  0 <= max_leds lc -> 0 <= sizeof_led_strip_rmt_obj ->
  sizeof_led_strip_rmt_obj + max_leds lc * 4 < 4294967296 ->
  exists p s,
    snd (fst run) = Some (p, s) /\
    let m := mk_machine p s (snd run) in
    let k := length (snd run) in
    let sent := calls_since k (snd (led_strip_rmt_refresh m)) in
    (forall e, In e sent -> is_transmit e = true ->
               transmit_payload e
               = Some (repeat 0 (Z.to_nat (max_leds lc * bytes_per_pixel s)))) /\
    (answer k = ESP_OK -> count_calls is_transmit sent = 1%nat).
Proof.
  intros run Hok Hl Hs Hfit.
  destruct (new_rmt_device_ok_device lc rc log Hok)
    as (bpp & size & cc & ec & Hw & Hsize & _ & Hrun).
  fold run in Hrun. rewrite Hrun. cbn [fst snd].
  assert (Hb : bpp = 3 \/ bpp = 4)
    by (destruct (width_of_format_cases _ _ Hw) as [[_ ->]|(_ & _ & ->)];
        auto).
  do 2 eexists. split; [reflexivity|].
  match goal with
  | |- context [led_strip_rmt_refresh ?x] => set (m := x)
  end.
  match goal with
  | |- context [calls_since (length ?l) _] => change l with (calls m)
  end.
  rewrite (refresh_calls_since m).
  split; [|apply spec_refresh_submits].
  intros e He Te. rewrite (spec_refresh_payload _ _ _ He Te).
  subst m. cbn [strip strip_len bytes_per_pixel pixel_buf].
  assert (Hn : 0 <= max_leds lc * bpp < 4294967296)
    by (destruct Hb; subst bpp; lia).
  rewrite (uint32_small _ Hn). f_equal.
  apply read_bytes_const. intros a Ha.
  rewrite Hsize, (allocation_size_exact _ _ Hb Hl Hs Hfit).
  apply memset_inside. rewrite Z2Nat.id in Ha by lia. lia.
Qed.

Lemma del_run m :
  let s := strip m in
  let k := length (calls m) in
  let del_chan :=
    mk_event (Call_rmt_del_channel (rmt_chan s)) (answer k) 0 in
  let del_enc :=
    mk_event (Call_rmt_del_encoder (strip_encoder s)) (answer (1 + k)) 0 in
  let free_obj := mk_event (Call_free (self m)) 0 0 in
  led_strip_rmt_del m
  = if negb (answer k =? ESP_OK)
    then (answer k, with_calls [del_chan] m)
    else if negb (answer (1 + k) =? ESP_OK)
         then (answer (1 + k), with_calls [del_chan; del_enc] m)
         else (ESP_OK, with_calls [del_chan; del_enc; free_obj] m).
Proof.
  intros s k del_chan del_enc free_obj.
  unfold led_strip_rmt_del, bind, get_strip, get_self, ret,
    extern_void, do_void.
  rewrite extern_run. fold k s del_chan.
  destruct (Z.eqb_spec (answer k) ESP_OK); cbn [negb]; [|reflexivity].
  rewrite extern_run, !with_calls_twice, !length_with_calls.
  cbn [length Nat.add app]. fold k.
  destruct (Z.eqb_spec (answer (S k)) ESP_OK); cbn [negb]; [|reflexivity].
  unfold with_calls; cbn. rewrite <- !app_assoc. reflexivity.
Qed.

Lemma outstanding_after_del size p cc h ec h' a0 a1 :
  p <> 0 ->
  let made := [mk_event (Call_calloc 1 size) p 0;
               mk_event (Call_rmt_new_tx_channel cc) ESP_OK h;
               mk_event (Call_rmt_new_led_strip_encoder ec) ESP_OK h'] in
  (a0 <> ESP_OK ->
   outstanding (made ++ [mk_event (Call_rmt_del_channel h) a0 0])
   = [Res_mem p; Res_chan h; Res_enc h']) /\
  (a0 = ESP_OK -> a1 <> ESP_OK ->
   outstanding (made ++ [mk_event (Call_rmt_del_channel h) a0 0;
                         mk_event (Call_rmt_del_encoder h') a1 0])
   = [Res_mem p; Res_enc h']) /\
  (a0 = ESP_OK -> a1 = ESP_OK ->
   outstanding (made ++ [mk_event (Call_rmt_del_channel h) a0 0;
                         mk_event (Call_rmt_del_encoder h') a1 0;
                         mk_event (Call_free p) 0 0])
   = []).
Proof.
  intros Hp made. subst made. unfold outstanding, held_step; cbn.
  rewrite (eqb_zero_false _ Hp). cbn.
  split; [|split].
  - intros H0. now rewrite (eqb_ESP_OK_false _ H0).
  - intros H0 H1. rewrite H0, (eqb_ESP_OK_false _ H1). cbn.
    unfold release; cbn. rewrite !Z.eqb_refl. reflexivity.
  - intros H0 H1. rewrite H0, H1. cbn. unfold release; cbn.
    rewrite !Z.eqb_refl. cbn. rewrite ?Z.eqb_refl. cbn.
    rewrite ?Z.eqb_refl. reflexivity.
Qed.

(** X13: construction and destruction cancel out.  When a device is
    constructed from an empty log and [led_strip_rmt_del] finds both
    deletions succeeding, it returns [ESP_OK] and nothing acquired is
    left held: memory, channel and encoder have all been released. *)
Theorem X13_new_then_del_releases_everything
        (lc : led_strip_config_t) (rc : led_strip_rmt_config_t) :
  let run := led_strip_new_rmt_device (Some lc) (Some rc) true [] in
  fst (fst run) = ESP_OK ->
  answer 3 = ESP_OK -> answer 4 = ESP_OK ->
  exists p s,
    snd (fst run) = Some (p, s) /\
    outstanding (snd run)
    = [Res_mem p; Res_chan (rmt_chan s); Res_enc (strip_encoder s)] /\
    let gone := led_strip_rmt_del (mk_machine p s (snd run)) in
    fst gone = ESP_OK /\ outstanding (calls (snd gone)) = [].
Proof.
  intros run Hok A3 A4.
  destruct (new_rmt_device_ok_device lc rc [] Hok)
    as (bpp & size & cc & ec & _ & _ & A0 & Hrun).
  fold run in Hrun. rewrite Hrun. cbn [fst snd length Nat.add app].
  do 2 eexists. split; [reflexivity|].
  split; [now apply outstanding_after_success|].
  cbv zeta. rewrite del_run. cbn [calls length Nat.add strip self
                                  rmt_chan strip_encoder].
  rewrite A3, A4. cbn [Z.eqb ESP_OK negb fst snd].
  split; [reflexivity|]. unfold with_calls. cbn [calls self strip].
  now apply (outstanding_after_del size (answer 0) cc _ ec _ ESP_OK ESP_OK).
Qed.

(** X14: a failed deletion leaves resources held.  After a construction
    from an empty log, when [rmt_del_channel] fails [led_strip_rmt_del]
    returns its error and memory, channel and encoder are all still held
    (the encoder deletion and [free] are not attempted); when
    [rmt_del_encoder] fails it returns that error and the memory and the
    encoder are still held, the channel being released. *)
Theorem X14_failed_del_leaves_resources_held
        (lc : led_strip_config_t) (rc : led_strip_rmt_config_t) :
  let run := led_strip_new_rmt_device (Some lc) (Some rc) true [] in
  fst (fst run) = ESP_OK ->
  exists p s,
    snd (fst run) = Some (p, s) /\
    let gone := led_strip_rmt_del (mk_machine p s (snd run)) in
    (answer 3 <> ESP_OK ->
     fst gone = answer 3 /\
     count_calls is_free (calls (snd gone)) = 0%nat /\
     outstanding (calls (snd gone))
     = [Res_mem p; Res_chan (rmt_chan s); Res_enc (strip_encoder s)]) /\
    (answer 3 = ESP_OK -> answer 4 <> ESP_OK ->
     fst gone = answer 4 /\
     count_calls is_free (calls (snd gone)) = 0%nat /\
     outstanding (calls (snd gone))
     = [Res_mem p; Res_enc (strip_encoder s)]).
Proof.
  intros run Hok.
  destruct (new_rmt_device_ok_device lc rc [] Hok)
    as (bpp & size & cc & ec & _ & _ & A0 & Hrun).
  fold run in Hrun. rewrite Hrun. cbn [fst snd length Nat.add app].
  do 2 eexists. split; [reflexivity|].
  cbv zeta. rewrite del_run. cbn [calls length Nat.add strip self
                                  rmt_chan strip_encoder].
  split.
  - intros A3. rewrite (eqb_ESP_OK_false _ A3). cbn [negb fst snd].
    split; [reflexivity|]. unfold with_calls. cbn [calls self strip].
    split; [reflexivity|].
    now apply (outstanding_after_del size (answer 0) cc _ ec _
                                     (answer 3) (answer 4)).
  - intros A3 A4. rewrite A3, (eqb_ESP_OK_false _ A4).
    cbn [Z.eqb ESP_OK negb fst snd].
    split; [reflexivity|]. unfold with_calls. cbn [calls self strip].
    split; [reflexivity|].
    now apply (outstanding_after_del size (answer 0) cc _ ec _
                                     ESP_OK (answer 4)).
Qed.



(** X16: on a constructed device the two pixel entry points exclude each
    other, whatever the buffer holds by then.  On a GRBW device
    [set_pixel] always returns [ESP_ERR_INVALID_ARG] and
    [set_pixel_rgbw] succeeds exactly for the indices below [max_leds];
    on an RGB or GRB device [set_pixel] always returns [ESP_OK] and
    [set_pixel_rgbw] always returns [ESP_ERR_INVALID_ARG]. *)
Theorem X16_entry_points_exclude_each_other
        (lc : led_strip_config_t) (rc : led_strip_rmt_config_t)
        (log : list event) :
  LED_PIXEL_FORMAT_GRBW <> LED_PIXEL_FORMAT_GRB ->
  LED_PIXEL_FORMAT_GRBW <> LED_PIXEL_FORMAT_RGB ->
  let run := led_strip_new_rmt_device (Some lc) (Some rc) true log in
  fst (fst run) = ESP_OK ->
  exists p s,
    snd (fst run) = Some (p, s) /\
    forall buf later index red green blue white,
      let m := mk_machine p (set_pixel_buf buf s) later in
      let rgb := fst (led_strip_rmt_set_pixel index red green blue m) in
      let rgbw :=
        fst (led_strip_rmt_set_pixel_rgbw index red green blue white m) in
      (cfg_led_pixel_format lc = LED_PIXEL_FORMAT_GRBW ->
       rgb = ESP_ERR_INVALID_ARG /\
       (rgbw = ESP_OK <-> index < max_leds lc) /\
       (rgbw = ESP_ERR_INVALID_ARG <-> max_leds lc <= index)) /\
      (cfg_led_pixel_format lc <> LED_PIXEL_FORMAT_GRBW ->
       rgb = ESP_OK /\ rgbw = ESP_ERR_INVALID_ARG).
Proof.
  intros Hg Hr run Hok.
  destruct (new_rmt_device_ok_device lc rc log Hok)
    as (bpp & size & cc & ec & Hw & _ & _ & Hrun).
  fold run in Hrun. rewrite Hrun. cbn [fst snd].
  do 2 eexists. split; [reflexivity|].
  intros buf later index red green blue white.
  match goal with
  | |- context [led_strip_rmt_set_pixel _ _ _ _ ?x] => set (m := x)
  end.
  destruct (width_of_format_cases _ _ Hw) as [[Hf ->]|(Hn & Hf & ->)].
  - split; [intros _|intros Hc; contradiction].
    split; [|split].
    + rewrite set_pixel_other; [reflexivity| |]; subst m; cbn; congruence.
    + split.
      * intros E.
        destruct (Z_lt_le_dec index (max_leds lc)) as [H|H]; [exact H|].
        rewrite set_pixel_rgbw_rejected in E by (left; exact H).
        discriminate E.
      * intros H. now rewrite set_pixel_rgbw_ok.
    + split.
      * intros E.
        destruct (Z_lt_le_dec index (max_leds lc)) as [H|H]; [|exact H].
        rewrite set_pixel_rgbw_ok in E by (exact H || reflexivity).
        discriminate E.
      * intros H. now rewrite set_pixel_rgbw_rejected by (left; exact H).
  - split; [intros Hc; contradiction|intros _].
    split.
    + apply (set_pixel_ok_bytes m index red green blue).
      subst m; cbn. destruct Hf; auto.
    + rewrite set_pixel_rgbw_rejected; [reflexivity|].
      right. subst m; cbn. lia.
Qed.

(** X17: the allocation size is computed in 32 bits and not checked.  When
    [max_leds * 3] reaches 2^32, a construction that succeeds has asked
    [calloc] for fewer buffer bytes than the
    [strip_len * bytes_per_pixel] the device it returns will address. *)
Theorem X17_new_device_buffer_can_be_short
        (lc : led_strip_config_t) (rc : led_strip_rmt_config_t)
        (log : list event) :
  let run := led_strip_new_rmt_device (Some lc) (Some rc) true log in
  fst (fst run) = ESP_OK ->
  0 <= sizeof_led_strip_rmt_obj ->
  4294967296 <= max_leds lc * 3 ->
  exists p s size,
    snd (fst run) = Some (p, s) /\
    In (mk_event (Call_calloc 1 size) p 0) (snd run) /\
    strip_len s = max_leds lc /\
    size - sizeof_led_strip_rmt_obj < strip_len s * bytes_per_pixel s.
Proof.
  intros run Hok Hs Hbig.
  destruct (new_rmt_device_ok_device lc rc log Hok)
    as (bpp & size & cc & ec & Hw & Hsize & _ & Hrun).
  fold run in Hrun. rewrite Hrun. cbn [fst snd].
  assert (Hb : bpp = 3 \/ bpp = 4)
    by (destruct (width_of_format_cases _ _ Hw) as [[_ ->]|(_ & _ & ->)];
        auto).
  assert (Hlt : size < 4294967296)
    by (rewrite Hsize; unfold uint32; apply Z.mod_pos_bound; lia).
  do 3 eexists. split; [reflexivity|]. split; [|split; [reflexivity|]].
  - apply in_or_app. right. left. reflexivity.
  - cbn. destruct Hb; subst bpp; lia.
Qed.

(** C7 (amended): [led_strip_new_rmt_device] returns
    [ESP_ERR_INVALID_ARG] for a missing argument and for every format that
    is none of GRB, GRBW, RGB, without calling anything.  For a format
    below [LED_PIXEL_FORMAT_INVALID] it derives 4 bytes per pixel for GRBW
    and 3 for RGB and GRB, and makes exactly the calls listed for each
    answer of [calloc] and of the two constructors.  On every failure
    branch it calls the release function of every resource acquired so far
    before it returns the error: [free] on the memory, and
    [rmt_del_channel] on the channel when the encoder could not be
    constructed.  Nothing is left held, provided that [rmt_del_channel]
    call returns [ESP_OK]; its return value is ignored, and when it fails
    the channel stays held. *)
Theorem C7_new_device_unwinds
        (lc : led_strip_config_t) (rc : led_strip_rmt_config_t)
        (log : list event) (bpp : Z) :
  LED_PIXEL_FORMAT_GRBW <> LED_PIXEL_FORMAT_GRB ->
  LED_PIXEL_FORMAT_GRBW <> LED_PIXEL_FORMAT_RGB ->
  let format := cfg_led_pixel_format lc in
  let k := length log in
  let size := uint32 (sizeof_led_strip_rmt_obj
                      + uint32 (max_leds lc * bpp)) in
  let resolution := if negb (resolution_hz rc =? 0)
                    then resolution_hz rc
                    else LED_STRIP_RMT_DEFAULT_RESOLUTION in
  let chan_config :=
    mk_rmt_tx_channel_config
      (if negb (clk_src rc =? 0) then clk_src rc else RMT_CLK_SRC_DEFAULT)
      (strip_gpio_num lc)
      (if negb (mem_block_symbols rc =? 0)
       then mem_block_symbols rc
       else LED_STRIP_RMT_DEFAULT_MEM_BLOCK_SYMBOLS)
      resolution LED_STRIP_RMT_DEFAULT_TRANS_QUEUE_SIZE
      (with_dma rc) (invert_out lc) in
  let enc_config := mk_led_strip_encoder_config resolution (led_model lc) in
  let ptr := answer k in
  let chan := Z.pos (fresh_handle (1 + k)) in
  let enc := Z.pos (fresh_handle (2 + k)) in
  let e_calloc := mk_event (Call_calloc 1 size) ptr 0 in
  let e_chan h := mk_event (Call_rmt_new_tx_channel chan_config)
                           (answer (1 + k)) h in
  let e_enc h := mk_event (Call_rmt_new_led_strip_encoder enc_config)
                          (answer (2 + k)) h in
  let e_del := mk_event (Call_rmt_del_channel chan) (answer (3 + k)) 0 in
  let e_free := mk_event (Call_free ptr) 0 0 in
  let run := led_strip_new_rmt_device (Some lc) (Some rc) true log in
  (led_strip_new_rmt_device None (Some rc) true log
   = ((ESP_ERR_INVALID_ARG, None), log) /\
   led_strip_new_rmt_device (Some lc) None true log
   = ((ESP_ERR_INVALID_ARG, None), log) /\
   led_strip_new_rmt_device (Some lc) (Some rc) false log
   = ((ESP_ERR_INVALID_ARG, None), log)) /\
  (format <> LED_PIXEL_FORMAT_GRB -> format <> LED_PIXEL_FORMAT_GRBW ->
   format <> LED_PIXEL_FORMAT_RGB ->
   run = ((ESP_ERR_INVALID_ARG, None), log)) /\
  (format < LED_PIXEL_FORMAT_INVALID ->
   (format = LED_PIXEL_FORMAT_GRBW /\ bpp = 4) \/
   ((format = LED_PIXEL_FORMAT_GRB \/ format = LED_PIXEL_FORMAT_RGB) /\
    bpp = 3) ->
   (ptr = 0 ->
    run = ((ESP_ERR_NO_MEM, None), log ++ [e_calloc]) /\
    outstanding [e_calloc] = []) /\
   (ptr <> 0 -> answer (1 + k) <> ESP_OK ->
    run = ((answer (1 + k), None), log ++ [e_calloc; e_chan 0; e_free]) /\
    outstanding [e_calloc; e_chan 0; e_free] = []) /\
   (ptr <> 0 -> answer (1 + k) = ESP_OK -> answer (2 + k) <> ESP_OK ->
    run = ((answer (2 + k), None),
           log ++ [e_calloc; e_chan chan; e_enc 0; e_del; e_free]) /\
    (answer (3 + k) = ESP_OK ->
     outstanding [e_calloc; e_chan chan; e_enc 0; e_del; e_free] = []) /\
    (answer (3 + k) <> ESP_OK ->
     outstanding [e_calloc; e_chan chan; e_enc 0; e_del; e_free]
     = [Res_chan chan])) /\
   (ptr <> 0 -> answer (1 + k) = ESP_OK -> answer (2 + k) = ESP_OK ->
    run = ((ESP_OK,
            Some (ptr,
                  mk_led_strip_rmt_obj format chan enc (max_leds lc) bpp
                    (memset beyond 0 (size - sizeof_led_strip_rmt_obj)))),
           log ++ [e_calloc; e_chan chan; e_enc enc]) /\
    outstanding [e_calloc; e_chan chan; e_enc enc]
    = [Res_mem ptr; Res_chan chan; Res_enc enc])).
Proof.
  intros Hg Hr format k size resolution chan_config enc_config ptr chan enc
         e_calloc e_chan e_enc e_del e_free run.
  split; [repeat split|]. split.
  - intros H1 H2 H3. apply new_rmt_device_unrecognised.
    unfold width_of_format. fold format.
    destruct (Z.eqb_spec format LED_PIXEL_FORMAT_GRBW); [contradiction|].
    destruct (Z.eqb_spec format LED_PIXEL_FORMAT_GRB); [contradiction|].
    destruct (Z.eqb_spec format LED_PIXEL_FORMAT_RGB); [contradiction|].
    reflexivity.
  - intros Hlt Hfmt.
    assert (Hw : width_of_format format = Some bpp).
    { unfold width_of_format.
      destruct Hfmt as [[Hf ->]|[Hf ->]].
      - now rewrite Hf, Z.eqb_refl.
      - destruct (Z.eqb_spec format LED_PIXEL_FORMAT_GRBW) as [E|E];
          [destruct Hf; congruence|].
        destruct Hf as [-> | ->]; rewrite Z.eqb_refl; cbn;
          [reflexivity | now rewrite orb_true_r]. }
    destruct (new_rmt_device_run lc rc log bpp Hlt Hw) as (R0 & R1 & R2 & R3).
    fold k size resolution chan_config enc_config ptr chan enc
         e_calloc run in R0, R1, R2, R3.
    split; [|split; [|split]].
    + intros A0. split; [exact (R0 A0)|].
      unfold outstanding, held_step, e_calloc; cbn. now rewrite A0.
    + intros A0 A1. split; [exact (R1 A0 A1)|].
      now apply outstanding_after_chan_failure.
    + intros A0 A1 A2. split; [exact (R2 A0 A1 A2)|].
      now apply outstanding_after_enc_failure.
    + intros A0 A1 A2. split; [exact (R3 A0 A1 A2)|].
      now apply outstanding_after_success.
Qed.

End Driver.

(** ** The driver on sample data *)

(** A GRB strip of 10 pixels: pixel 3 set to (255, 0, 0) reads back
    (0, 255, 0) at offset 9. *)
Lemma C1_pixel_wire_order_witness :
  sample_RGB <> sample_GRB /\
  buffer_fits (strip (sample_machine sample_GRB 3 10 0)) /\
  read_bytes
    (pixel_buf
       (strip (snd (led_strip_rmt_set_pixel sample_GRB sample_RGB 3 255 0 0
                      (sample_machine sample_GRB 3 10 0))))) 9 3
  = [0; 255; 0].
Proof.
  assert (Hne : sample_RGB <> sample_GRB) by (unfold sample_RGB, sample_GRB; lia).
  assert (Hfit : buffer_fits (strip (sample_machine sample_GRB 3 10 0)))
    by (unfold buffer_fits; simpl; lia).
  split; [exact Hne|]. split; [exact Hfit|].
  destruct (C1_pixel_wire_order sample_GRB sample_RGB
              (sample_machine sample_GRB 3 10 0) Hne Hfit) as [H _].
  assert (Hi : 0 <= 3 < strip_len (strip (sample_machine sample_GRB 3 10 0)))
    by (simpl; lia).
  destruct (H 3 255 0 0 Hi) as (_ & Hgrb & _).
  exact (proj2 (Hgrb eq_refl)).
Defined.

(** Submit fails with 263 and the disable that follows fails with 259: the
    result is 263, after enable, submit, disable. *)
Lemma C2_refresh_sequence_witness :
  buffer_fits (strip (sample_machine sample_GRB 3 2 5)) /\
  led_strip_rmt_refresh (scripted [0; 263; 259])
                        (sample_machine sample_GRB 3 2 5)
  = (263,
     with_calls
       [mk_event (Call_rmt_enable 7) 0 0;
        mk_event (Call_rmt_transmit 7 9 [5; 5; 5; 5; 5; 5] 6 0) 263 0;
        mk_event (Call_rmt_disable 7) 259 0]
       (sample_machine sample_GRB 3 2 5)).
Proof.
  assert (Hfit : buffer_fits (strip (sample_machine sample_GRB 3 2 5)))
    by (unfold buffer_fits; simpl; lia).
  split; [exact Hfit|].
  destruct (C2_refresh_sequence (scripted [0; 263; 259])
              (sample_machine sample_GRB 3 2 5) Hfit) as (_ & H & _).
  apply H; [reflexivity | vm_compute; discriminate].
Defined.

(** Enable, submit and wait succeed and the disable call fails with 259:
    [refresh] returns 259 and the channel is left enabled, although this is
    not the path on which enable fails. *)
Lemma C2_refresh_can_leave_the_channel_enabled :
  ~ (forall (answer : nat -> Z) (m : machine),
        answer (length (calls m)) = ESP_OK ->
        chan_enabled false
          (calls_since (length (calls m))
             (snd (led_strip_rmt_refresh answer m))) = false).
Proof.
  intros H.
  specialize (H (scripted [0; 0; 0; 259]) (sample_machine sample_GRB 3 2 5)
                eq_refl).
  vm_compute in H. discriminate H.
Qed.

(** Pixel 1000 of a 10-pixel RGB strip: the call succeeds and the bytes land
    at offset 3000; on a GRBW strip the call is refused. *)
Lemma C3_set_pixel_index_unchecked_witness :
  (let run := led_strip_rmt_set_pixel sample_GRB sample_RGB 1000 1 2 3
                (sample_machine sample_RGB 3 10 0) in
   fst run = ESP_OK /\
   read_bytes (pixel_buf (strip (snd run))) 3000 3 = [1; 2; 3]) /\
  (let run := led_strip_rmt_set_pixel sample_GRB sample_RGB 0 1 2 3
                (sample_machine sample_GRBW 4 10 0) in
   fst run = ESP_ERR_INVALID_ARG /\ snd run = sample_machine sample_GRBW 4 10 0).
Proof.
  split.
  - exact (proj1 (C3_set_pixel_index_unchecked sample_GRB sample_RGB
                    (sample_machine sample_RGB 3 10 0) 1000 1 2 3)
                 (or_introl eq_refl)).
  - destruct (C3_set_pixel_index_unchecked sample_GRB sample_RGB
                (sample_machine sample_GRBW 4 10 0) 0 1 2 3) as (_ & Hiff & Hsame).
    assert (Hfmt : led_pixel_format (strip (sample_machine sample_GRBW 4 10 0))
                   <> sample_RGB /\
                   led_pixel_format (strip (sample_machine sample_GRBW 4 10 0))
                   <> sample_GRB)
      by (split; vm_compute; discriminate).
    exact (conj (proj2 Hiff Hfmt) (Hsame Hfmt)).
Defined.

(** Index 10 on a 10-pixel GRBW strip is refused; index 2 is accepted. *)
Lemma C4_set_pixel_rgbw_validation_witness :
  (let run := led_strip_rmt_set_pixel_rgbw 10 1 2 3 4
                (sample_machine sample_GRBW 4 10 0) in
   fst run = ESP_ERR_INVALID_ARG /\ snd run = sample_machine sample_GRBW 4 10 0) /\
  fst (led_strip_rmt_set_pixel_rgbw 2 10 20 30 40
         (sample_machine sample_GRBW 4 5 0)) = ESP_OK.
Proof.
  split.
  - apply (proj1 (C4_set_pixel_rgbw_validation
                    (sample_machine sample_GRBW 4 10 0) 10 1 2 3 4)).
    left. simpl. lia.
  - apply (proj2 (C4_set_pixel_rgbw_validation
                    (sample_machine sample_GRBW 4 5 0) 2 10 20 30 40)).
    + simpl. lia.
    + reflexivity.
Defined.

(** A strip of two pixels filled with 5: after [clear] the six bytes are
    zero and the byte behind them still holds 5. *)
Lemma C5_clear_zeroes_then_refreshes_witness :
  buffer_fits (strip (sample_machine sample_GRB 3 2 5)) /\
  (let run := led_strip_rmt_clear (scripted []) (sample_machine sample_GRB 3 2 5) in
   pixel_buf (strip (snd run)) 5 = 0 /\
   pixel_buf (strip (snd run)) 6 = 5 /\
   count_calls is_enable (calls_since 0 (snd run)) = 1%nat).
Proof.
  assert (Hfit : buffer_fits (strip (sample_machine sample_GRB 3 2 5)))
    by (unfold buffer_fits; simpl; lia).
  split; [exact Hfit|].
  destruct (C5_clear_zeroes_then_refreshes (scripted [])
              (sample_machine sample_GRB 3 2 5) Hfit)
    as (_ & _ & Hin & Hout & Hen & _).
  split; [apply Hin; simpl; lia|].
  split; [apply Hout; simpl; lia | exact Hen].
Defined.

(** Red 300 on an RGB strip stores 44. *)
Lemma C6_channel_truncation_witness :
  pixel_buf
    (strip (snd (led_strip_rmt_set_pixel sample_GRB sample_RGB 1 300 0 0
                   (sample_machine sample_RGB 3 10 0)))) 3 = 44.
Proof.
  destruct (C6_channel_truncation sample_GRB sample_RGB
              (sample_machine sample_RGB 3 10 0) 1 300 0 0 0)
    as (_ & _ & _ & H).
  exact (H eq_refl).
Defined.

(** A GRBW strip of 5 pixels.  The encoder cannot be constructed (error
    261) and the channel deletion that follows succeeds: the error is
    returned and nothing is left held.  With every call succeeding the device
    has four bytes per pixel. *)
Lemma C7_new_device_unwinds_witness :
  sample_GRBW <> sample_GRB /\ sample_GRBW <> sample_RGB /\
  (let run := led_strip_new_rmt_device sample_GRB sample_GRBW sample_RGB
                sample_INVALID sample_CLK_SRC_DEFAULT sample_MEM_BLOCK_SYMBOLS
                sample_sizeof (scripted [4096; 0; 261; 0]) sample_handle
                (fun _ => 0) (Some (sample_led_config sample_GRBW 5))
                (Some sample_rmt_config) true [] in
   fst run = (261, None) /\ outstanding (snd run) = []) /\
  (let run := led_strip_new_rmt_device sample_GRB sample_GRBW sample_RGB
                sample_INVALID sample_CLK_SRC_DEFAULT sample_MEM_BLOCK_SYMBOLS
                sample_sizeof (scripted [4096]) sample_handle
                (fun _ => 0) (Some (sample_led_config sample_GRBW 5))
                (Some sample_rmt_config) true [] in
   fst (fst run) = ESP_OK /\
   option_map (fun d => bytes_per_pixel (snd d)) (snd (fst run)) = Some 4).
Proof.
  assert (H1 : sample_GRBW <> sample_GRB)
    by (unfold sample_GRBW, sample_GRB; lia).
  assert (H2 : sample_GRBW <> sample_RGB)
    by (unfold sample_GRBW, sample_RGB; lia).
  assert (Hlt : cfg_led_pixel_format (sample_led_config sample_GRBW 5)
                < sample_INVALID)
    by (unfold sample_INVALID; simpl; unfold sample_GRBW; lia).
  assert (Hfmt : (cfg_led_pixel_format (sample_led_config sample_GRBW 5)
                  = sample_GRBW /\ 4 = 4) \/
                 ((cfg_led_pixel_format (sample_led_config sample_GRBW 5)
                   = sample_GRB \/
                   cfg_led_pixel_format (sample_led_config sample_GRBW 5)
                   = sample_RGB) /\ 4 = 3))
    by (left; split; reflexivity).
  split; [exact H1|]. split; [exact H2|]. split.
  - destruct (C7_new_device_unwinds sample_GRB sample_GRBW sample_RGB
                sample_INVALID sample_CLK_SRC_DEFAULT sample_MEM_BLOCK_SYMBOLS
                sample_sizeof (scripted [4096; 0; 261; 0]) sample_handle
                (fun _ => 0) (sample_led_config sample_GRBW 5)
                sample_rmt_config [] 4 H1 H2)
      as (_ & _ & Hpaths).
    destruct (Hpaths Hlt Hfmt) as (_ & _ & Henc & _).
    destruct Henc as (Hrun & Hheld & _).
    + vm_compute. discriminate.
    + reflexivity.
    + vm_compute. discriminate.
    + rewrite Hrun. split; [reflexivity|]. apply Hheld. reflexivity.
  - destruct (C7_new_device_unwinds sample_GRB sample_GRBW sample_RGB
                sample_INVALID sample_CLK_SRC_DEFAULT sample_MEM_BLOCK_SYMBOLS
                sample_sizeof (scripted [4096]) sample_handle
                (fun _ => 0) (sample_led_config sample_GRBW 5)
                sample_rmt_config [] 4 H1 H2)
      as (_ & _ & Hpaths).
    destruct (Hpaths Hlt Hfmt) as (_ & _ & _ & Hok).
    destruct Hok as (Hrun & _).
    + vm_compute. discriminate.
    + reflexivity.
    + reflexivity.
    + rewrite Hrun. split; reflexivity.
Defined.

(** The encoder cannot be constructed (error 261) and the channel deletion
    of the cleanup fails with 259: error 261 is returned and the channel is
    still held. *)
Lemma C7_failed_cleanup_leaves_the_channel_held :
  ~ (forall answer : nat -> Z,
        let run := led_strip_new_rmt_device sample_GRB sample_GRBW sample_RGB
                     sample_INVALID sample_CLK_SRC_DEFAULT
                     sample_MEM_BLOCK_SYMBOLS sample_sizeof answer
                     sample_handle (fun _ => 0)
                     (Some (sample_led_config sample_GRB 10))
                     (Some sample_rmt_config) true [] in
        fst (fst run) <> ESP_OK -> outstanding (snd run) = []).
Proof.
  intros H.
  specialize (H (scripted [4096; 0; 261; 259])).
  cbv zeta in H.
  assert (E : outstanding
                (snd (led_strip_new_rmt_device sample_GRB sample_GRBW
                        sample_RGB sample_INVALID sample_CLK_SRC_DEFAULT
                        sample_MEM_BLOCK_SYMBOLS sample_sizeof
                        (scripted [4096; 0; 261; 259]) sample_handle
                        (fun _ => 0) (Some (sample_led_config sample_GRB 10))
                        (Some sample_rmt_config) true []))
              = [Res_chan 102]) by reflexivity.
  rewrite H in E; [discriminate E|]. vm_compute. discriminate.
Qed.

(** Two refreshes of a strip filled with 5: both submit the same six bytes. *)
Lemma C8_refresh_reads_only_witness :
  buffer_fits (strip (sample_machine sample_GRB 3 2 5)) /\
  (let m1 := snd (led_strip_rmt_refresh (scripted [])
                    (sample_machine sample_GRB 3 2 5)) in
   let m2 := snd (led_strip_rmt_refresh (scripted []) m1) in
   strip m2 = strip (sample_machine sample_GRB 3 2 5) /\
   map transmit_payload (filter is_transmit (calls m2))
   = [Some [5; 5; 5; 5; 5; 5]; Some [5; 5; 5; 5; 5; 5]]).
Proof.
  assert (Hfit : buffer_fits (strip (sample_machine sample_GRB 3 2 5)))
    by (unfold buffer_fits; simpl; lia).
  split; [exact Hfit|].
  destruct (C8_refresh_reads_only (scripted [])
              (sample_machine sample_GRB 3 2 5) Hfit) as (_ & H2 & _).
  split; [exact H2 | reflexivity].
Defined.

(** The encoder deletion fails with 259: that error is returned and [free]
    is not called. *)
Lemma C9_del_frees_only_after_both_releases_witness :
  let run := led_strip_rmt_del (scripted [0; 259])
               (sample_machine sample_GRB 3 2 5) in
  fst run <> ESP_OK /\
  count_calls is_free (calls_since 0 (snd run)) = 0%nat.
Proof.
  destruct (C9_del_frees_only_after_both_releases (scripted [0; 259])
              (sample_machine sample_GRB 3 2 5)) as (_ & _ & _ & H & _).
  apply H. right. vm_compute. discriminate.
Defined.

(** A GRB strip of 10 pixels, all bytes zero: [set_pixel] for pixel
    1431655766 succeeds and the first six bytes of the buffer become
    0, 0, 2, 1, 3, 0. *)
Lemma C10_set_pixel_far_index_hits_near_pixels_witness :
  sample_RGB <> sample_GRB /\
  (let run := led_strip_rmt_set_pixel sample_GRB sample_RGB 1431655766 1 2 3
                (sample_machine sample_GRB 3 10 0) in
   fst run = ESP_OK /\
   read_bytes (pixel_buf (strip (snd run))) 2 3 = [2; 1; 3] /\
   read_bytes (pixel_buf (strip (snd run))) 0 6 = [0; 0; 2; 1; 3; 0]).
Proof.
  assert (Hne : sample_RGB <> sample_GRB) by (unfold sample_RGB, sample_GRB; lia).
  split; [exact Hne|].
  destruct (C10_set_pixel_far_index_hits_near_pixels sample_GRB sample_RGB
              (sample_machine sample_GRB 3 10 0) Hne eq_refl eq_refl)
    as [Hok Hbytes].
  split; [exact Hok|]. split; [exact Hbytes | reflexivity].
Defined.

(** ** Scenarios of the specification *)

(** GRBW, 5 pixels: [set_pixel_rgbw (2, 10, 20, 30, 40)] puts 20, 10, 30, 40
    at offsets 8 to 11. *)
Example scenario_grbw_pixel_2 :
  read_bytes
    (pixel_buf (strip (snd (led_strip_rmt_set_pixel_rgbw 2 10 20 30 40
                              (sample_machine sample_GRBW 4 5 0))))) 8 4
  = [20; 10; 30; 40].
Proof. reflexivity. Qed.

(** A GRB device of 10 pixels is created, then pixel 0 is set to red. *)
Example scenario_create_then_set_pixel :
  match led_strip_new_rmt_device sample_GRB sample_GRBW sample_RGB
          sample_INVALID sample_CLK_SRC_DEFAULT sample_MEM_BLOCK_SYMBOLS
          sample_sizeof (scripted [4096]) sample_handle (fun _ => 170)
          (Some (sample_led_config sample_GRB 10)) (Some sample_rmt_config)
          true [] with
  | ((err, Some (ptr, s)), log) =>
      err = ESP_OK /\ bytes_per_pixel s = 3 /\ strip_len s = 10 /\
      read_bytes (pixel_buf s) 0 3 = [0; 0; 0] /\
      read_bytes
        (pixel_buf
           (strip (snd (led_strip_rmt_set_pixel sample_GRB sample_RGB
                          0 255 0 0 (mk_machine ptr s log))))) 0 3
      = [0; 255; 0]
  | _ => False
  end.
Proof. vm_compute. repeat split. Qed.

(** Enable fails with 259: [refresh] returns 259 and calls nothing else. *)
Example scenario_enable_fails :
  let run := led_strip_rmt_refresh (scripted [259])
               (sample_machine sample_GRB 3 2 5) in
  fst run = 259 /\
  map ev_call (calls (snd run)) = [Call_rmt_enable 7].
Proof. vm_compute. split; reflexivity. Qed.

(** Every call answers [ESP_OK]: enable, submit, wait, disable. *)
Example scenario_refresh_succeeds :
  let run := led_strip_rmt_refresh (scripted [])
               (sample_machine sample_GRB 3 2 5) in
  fst run = ESP_OK /\
  map ev_call (calls (snd run))
  = [Call_rmt_enable 7;
     Call_rmt_transmit 7 9 [5; 5; 5; 5; 5; 5] 6 0;
     Call_rmt_tx_wait_all_done 7 (-1);
     Call_rmt_disable 7].
Proof. vm_compute. split; reflexivity. Qed.

(** ** Further runs on sample data *)



(** Pixel 10 of a 10-pixel strip: accepted, and stored behind the buffer. *)
Lemma X3_set_pixel_past_the_end_witness :
  clear_of_header sample_sizeof 30 3 /\
  (let run := led_strip_rmt_set_pixel sample_GRB sample_RGB 10 1 2 3
                (sample_machine sample_RGB 3 10 7) in
   fst run = ESP_OK /\
   buf_after run 29 = 7 /\
   read_bytes (buf_after run) 30 3 = [1; 2; 3]).
Proof.
  assert (Hc : clear_of_header sample_sizeof 30 3)
    by (unfold clear_of_header, sample_sizeof; lia).
  split; [exact Hc|].
  destruct (X3_set_pixel_past_the_end sample_GRB sample_RGB sample_sizeof
              (sample_machine sample_RGB 3 10 7) 10 1 2 3)
    as (Hok & Hin & _ & Hread).
  - left. reflexivity.
  - simpl. lia.
  - simpl. lia.
  - exact Hc.
  - split; [exact Hok|]. split; [|exact Hread].
    apply Hin. unfold in_buffer. simpl. lia.
Defined.

(** Offset 5, in the middle of pixel 1, is reached with index 1431655767. *)
Lemma X4_set_pixel_reaches_every_offset_witness :
  uint32 (5 * 2863311531) = 1431655767 /\
  read_bytes
    (buf_after (led_strip_rmt_set_pixel sample_GRB sample_RGB 1431655767 1 2 3
                  (sample_machine sample_RGB 3 10 0))) 5 3
  = [1; 2; 3].
Proof.
  split; [reflexivity|].
  destruct (X4_set_pixel_reaches_every_offset sample_GRB sample_RGB
              (sample_machine sample_RGB 3 10 0) 5 1 2 3)
    as (_ & _ & Hread).
  - left. reflexivity.
  - reflexivity.
  - lia.
  - exact Hread.
Defined.




(** The last call, disable, fails with 259: [refresh] does not succeed. *)
Lemma X8_refresh_ok_iff_all_calls_ok_witness :
  fst (led_strip_rmt_refresh (scripted [])
         (sample_machine sample_GRB 3 2 5)) = ESP_OK /\
  fst (led_strip_rmt_refresh (scripted [0; 0; 0; 259])
         (sample_machine sample_GRB 3 2 5)) <> ESP_OK.
Proof.
  split.
  - apply (proj1 (X8_refresh_ok_iff_all_calls_ok (scripted [])
                    (sample_machine sample_GRB 3 2 5))).
    repeat split.
  - intros H.
    apply (proj1 (proj1 (X8_refresh_ok_iff_all_calls_ok
                           (scripted [0; 0; 0; 259])
                           (sample_machine sample_GRB 3 2 5)))) in H.
    destruct H as (_ & _ & _ & H). vm_compute in H. discriminate H.
Defined.


(** Allocation and both constructors succeed; then the channel constructor
    fails with 261. *)
Lemma X10_new_device_ok_iff_witness :
  fst (fst (led_strip_new_rmt_device sample_GRB sample_GRBW sample_RGB
              sample_INVALID sample_CLK_SRC_DEFAULT sample_MEM_BLOCK_SYMBOLS
              sample_sizeof (scripted [4096]) sample_handle (fun _ => 170)
              (Some (sample_led_config sample_GRB 10))
              (Some sample_rmt_config) true [])) = ESP_OK /\
  fst (fst (led_strip_new_rmt_device sample_GRB sample_GRBW sample_RGB
              sample_INVALID sample_CLK_SRC_DEFAULT sample_MEM_BLOCK_SYMBOLS
              sample_sizeof (scripted [4096; 261]) sample_handle (fun _ => 170)
              (Some (sample_led_config sample_GRB 10))
              (Some sample_rmt_config) true [])) = 261.
Proof.
  split.
  - apply (proj1 (X10_new_device_ok_iff sample_GRB sample_GRBW sample_RGB
                    sample_INVALID sample_CLK_SRC_DEFAULT
                    sample_MEM_BLOCK_SYMBOLS sample_sizeof (scripted [4096])
                    sample_handle (fun _ => 170)
                    (sample_led_config sample_GRB 10) sample_rmt_config [])).
    split; [split; [vm_compute; reflexivity | right; left; reflexivity]|].
    split; [vm_compute; discriminate|]. split; reflexivity.
  - destruct (X10_new_device_ok_iff sample_GRB sample_GRBW sample_RGB
                sample_INVALID sample_CLK_SRC_DEFAULT
                sample_MEM_BLOCK_SYMBOLS sample_sizeof (scripted [4096; 261])
                sample_handle (fun _ => 170)
                (sample_led_config sample_GRB 10) sample_rmt_config [])
      as (_ & _ & H & _).
    apply H.
    + split; [vm_compute; reflexivity | right; left; reflexivity].
    + vm_compute. discriminate.
    + vm_compute. discriminate.
Defined.

Lemma X11_new_device_is_well_formed_witness :
  exists p s,
    snd (fst (led_strip_new_rmt_device sample_GRB sample_GRBW sample_RGB
                sample_INVALID sample_CLK_SRC_DEFAULT sample_MEM_BLOCK_SYMBOLS
                sample_sizeof (scripted [4096]) sample_handle (fun _ => 170)
                (Some (sample_led_config sample_GRBW 5))
                (Some sample_rmt_config) true [])) = Some (p, s) /\
    strip_len s = 5 /\ buffer_fits s /\ pixel_buf s 14 = 0.
Proof.
  destruct (X11_new_device_is_well_formed sample_GRB sample_GRBW sample_RGB
              sample_INVALID sample_CLK_SRC_DEFAULT sample_MEM_BLOCK_SYMBOLS
              sample_sizeof (scripted [4096]) sample_handle (fun _ => 170)
              (sample_led_config sample_GRBW 5) sample_rmt_config [])
    as (p & s & Hout & Hlen & _ & Hb & Hfit & Hzero & _).
  - reflexivity.
  - simpl. lia.
  - unfold sample_sizeof. lia.
  - unfold sample_sizeof. simpl. lia.
  - exists p, s. split; [exact Hout|]. split; [exact Hlen|].
    split; [exact Hfit|]. apply Hzero. unfold in_buffer.
    simpl in Hlen. rewrite Hlen. destruct Hb as [-> | ->]; lia.
Defined.

Lemma X12_new_device_sends_zero_frame_witness :
  exists p s,
    snd (fst (led_strip_new_rmt_device sample_GRB sample_GRBW sample_RGB
                sample_INVALID sample_CLK_SRC_DEFAULT sample_MEM_BLOCK_SYMBOLS
                sample_sizeof (scripted [4096]) sample_handle (fun _ => 170)
                (Some (sample_led_config sample_GRB 2))
                (Some sample_rmt_config) true [])) = Some (p, s) /\
    count_calls is_transmit
      (calls_since 3
         (snd (led_strip_rmt_refresh (scripted [4096])
                 (mk_machine p s
                    (snd (led_strip_new_rmt_device sample_GRB sample_GRBW
                            sample_RGB sample_INVALID sample_CLK_SRC_DEFAULT
                            sample_MEM_BLOCK_SYMBOLS sample_sizeof
                            (scripted [4096]) sample_handle (fun _ => 170)
                            (Some (sample_led_config sample_GRB 2))
                            (Some sample_rmt_config) true []))))))
    = 1%nat.
Proof.
  destruct (X12_new_device_sends_zero_frame sample_GRB sample_GRBW sample_RGB
              sample_INVALID sample_CLK_SRC_DEFAULT sample_MEM_BLOCK_SYMBOLS
              sample_sizeof (scripted [4096]) sample_handle (fun _ => 170)
              (sample_led_config sample_GRB 2) sample_rmt_config [])
    as (p & s & Hout & _ & Hsent).
  - reflexivity.
  - simpl. lia.
  - unfold sample_sizeof. lia.
  - unfold sample_sizeof. simpl. lia.
  - exists p, s. split; [exact Hout|]. apply Hsent. reflexivity.
Defined.

Lemma X13_new_then_del_releases_everything_witness :
  exists p s,
    snd (fst (led_strip_new_rmt_device sample_GRB sample_GRBW sample_RGB
                sample_INVALID sample_CLK_SRC_DEFAULT sample_MEM_BLOCK_SYMBOLS
                sample_sizeof (scripted [4096]) sample_handle (fun _ => 170)
                (Some (sample_led_config sample_GRB 10))
                (Some sample_rmt_config) true [])) = Some (p, s) /\
    outstanding
      (calls (snd (led_strip_rmt_del (scripted [4096])
                     (mk_machine p s
                        (snd (led_strip_new_rmt_device sample_GRB sample_GRBW
                                sample_RGB sample_INVALID sample_CLK_SRC_DEFAULT
                                sample_MEM_BLOCK_SYMBOLS sample_sizeof
                                (scripted [4096]) sample_handle (fun _ => 170)
                                (Some (sample_led_config sample_GRB 10))
                                (Some sample_rmt_config) true []))))))
    = [].
Proof.
  destruct (X13_new_then_del_releases_everything sample_GRB sample_GRBW
              sample_RGB sample_INVALID sample_CLK_SRC_DEFAULT
              sample_MEM_BLOCK_SYMBOLS sample_sizeof (scripted [4096])
              sample_handle (fun _ => 170)
              (sample_led_config sample_GRB 10) sample_rmt_config)
    as (p & s & Hout & _ & _ & Hgone).
  - reflexivity.
  - reflexivity.
  - reflexivity.
  - exists p, s. split; [exact Hout | exact Hgone].
Defined.

(** The channel deletion fails with 259: nothing has been released. *)
Lemma X14_failed_del_leaves_resources_held_witness :
  exists p s,
    snd (fst (led_strip_new_rmt_device sample_GRB sample_GRBW sample_RGB
                sample_INVALID sample_CLK_SRC_DEFAULT sample_MEM_BLOCK_SYMBOLS
                sample_sizeof (scripted [4096; 0; 0; 259]) sample_handle
                (fun _ => 170) (Some (sample_led_config sample_GRB 10))
                (Some sample_rmt_config) true [])) = Some (p, s) /\
    outstanding
      (calls (snd (led_strip_rmt_del (scripted [4096; 0; 0; 259])
                     (mk_machine p s
                        (snd (led_strip_new_rmt_device sample_GRB sample_GRBW
                                sample_RGB sample_INVALID sample_CLK_SRC_DEFAULT
                                sample_MEM_BLOCK_SYMBOLS sample_sizeof
                                (scripted [4096; 0; 0; 259]) sample_handle
                                (fun _ => 170)
                                (Some (sample_led_config sample_GRB 10))
                                (Some sample_rmt_config) true []))))))
    = [Res_mem p; Res_chan (rmt_chan s); Res_enc (strip_encoder s)].
Proof.
  destruct (X14_failed_del_leaves_resources_held sample_GRB sample_GRBW
              sample_RGB sample_INVALID sample_CLK_SRC_DEFAULT
              sample_MEM_BLOCK_SYMBOLS sample_sizeof
              (scripted [4096; 0; 0; 259]) sample_handle (fun _ => 170)
              (sample_led_config sample_GRB 10) sample_rmt_config)
    as (p & s & Hout & Hchan & _).
  - reflexivity.
  - exists p, s. split; [exact Hout|].
    apply Hchan. vm_compute. discriminate.
Defined.


Lemma X16_entry_points_exclude_each_other_witness :
  sample_GRBW <> sample_GRB /\ sample_GRBW <> sample_RGB /\
  exists p s,
    snd (fst (led_strip_new_rmt_device sample_GRB sample_GRBW sample_RGB
                sample_INVALID sample_CLK_SRC_DEFAULT sample_MEM_BLOCK_SYMBOLS
                sample_sizeof (scripted [4096]) sample_handle (fun _ => 170)
                (Some (sample_led_config sample_GRBW 5))
                (Some sample_rmt_config) true [])) = Some (p, s) /\
    fst (led_strip_rmt_set_pixel sample_GRB sample_RGB 0 1 2 3
           (mk_machine p (set_pixel_buf (fun _ => 0) s) []))
    = ESP_ERR_INVALID_ARG.
Proof.
  assert (H1 : sample_GRBW <> sample_GRB)
    by (unfold sample_GRBW, sample_GRB; lia).
  assert (H2 : sample_GRBW <> sample_RGB)
    by (unfold sample_GRBW, sample_RGB; lia).
  split; [exact H1|]. split; [exact H2|].
  destruct (X16_entry_points_exclude_each_other sample_GRB sample_GRBW
              sample_RGB sample_INVALID sample_CLK_SRC_DEFAULT
              sample_MEM_BLOCK_SYMBOLS sample_sizeof (scripted [4096])
              sample_handle (fun _ => 170)
              (sample_led_config sample_GRBW 5) sample_rmt_config [] H1 H2)
    as (p & s & Hout & Hex).
  - reflexivity.
  - exists p, s. split; [exact Hout|].
    exact (proj1 (proj1 (Hex (fun _ => 0) [] 0 1 2 3 4) eq_refl)).
Defined.

(** 1431655767 LEDs of three bytes: 45 bytes are asked for, 5 of them for
    the buffer. *)
Lemma X17_new_device_buffer_can_be_short_witness :
  exists p s size,
    snd (fst (led_strip_new_rmt_device sample_GRB sample_GRBW sample_RGB
                sample_INVALID sample_CLK_SRC_DEFAULT sample_MEM_BLOCK_SYMBOLS
                sample_sizeof (scripted [4096]) sample_handle (fun _ => 170)
                (Some (sample_led_config sample_GRB 1431655767))
                (Some sample_rmt_config) true [])) = Some (p, s) /\
    In (mk_event (Call_calloc 1 size) p 0)
       (snd (led_strip_new_rmt_device sample_GRB sample_GRBW sample_RGB
               sample_INVALID sample_CLK_SRC_DEFAULT sample_MEM_BLOCK_SYMBOLS
               sample_sizeof (scripted [4096]) sample_handle (fun _ => 170)
               (Some (sample_led_config sample_GRB 1431655767))
               (Some sample_rmt_config) true [])) /\
    size - sample_sizeof < strip_len s * bytes_per_pixel s.
Proof.
  destruct (X17_new_device_buffer_can_be_short sample_GRB sample_GRBW
              sample_RGB sample_INVALID sample_CLK_SRC_DEFAULT
              sample_MEM_BLOCK_SYMBOLS sample_sizeof (scripted [4096])
              sample_handle (fun _ => 170)
              (sample_led_config sample_GRB 1431655767) sample_rmt_config [])
    as (p & s & size & Hout & Hin & _ & Hshort).
  - reflexivity.
  - unfold sample_sizeof. lia.
  - simpl. lia.
  - exists p, s, size. split; [exact Hout|]. split; [exact Hin | exact Hshort].
Defined.
